(** * tonsdk wallet contract: message construction

    A shallow embedding of [tonsdk/contract/wallet/_wallet_contract.py]:
    the send-mode flags, the [WalletMessage] dataclass with its [to_dict] /
    [from_dict] pair, the [WalletContract] constructor check, and the three
    builders [create_signing_message], [create_transfer_message] and
    [create_external_message] (plus [create_init_external_message]).

    Python exceptions are modelled by an error monad; dictionaries by
    stdpp's [gmap string _]; the cell engine, the address codec, the signing
    primitive and the base class [Contract] live outside this file of the
    repository and are taken as an interface ([Collaborators]). *)

From Stdlib Require Import ZArith NArith Lia Strings.Byte.
From stdpp Require Import base option list strings gmap.

Open Scope Z_scope.

(** ** Exceptions and the error monad *)

Inductive Error :=
  | RequiredKeyOrAddress        (* Exception("WalletContract required publicKey or address in options") *)
  | ManyRecipients              (* Exception("Many recipients for this contract") *)
  | KeyError (key : string)     (* subscript of a dict on a missing key *)
  | AttributeError              (* attribute access on an object that lacks it *)
  | TypeError                   (* a value of the wrong Python type reaches the cell engine *)
  | CellError                   (* raised by the cell engine: overflow, value out of range, bad text *)
  | CollaboratorError (who : string).   (* raised inside a collaborator *)

Inductive result (A : Type) :=
  | Ok (a : A)
  | Err (e : Error).
Arguments Ok {A} a.
Arguments Err {A} e.

#[global] Instance result_ret : MRet result := fun A a => Ok a.
#[global] Instance result_bind : MBind result := fun A B f m =>
  match m with Ok a => f a | Err e => Err e end.

Definition is_Ok {A} (r : result A) : Prop := ∃ a, r = Ok a.

(** A collaborator either returns or raises an error of its own. *)
Definition collab {A} (who : string) (o : option A) : result A :=
  match o with Some a => Ok a | None => Err (CollaboratorError who) end.

(** [for x in l: s = f(s, x)], stopping at the first exception. *)
Fixpoint for_each {S A} (f : S → A → result S) (l : list A) (s : S) : result S :=
  match l with
  | [] => Ok s
  | x :: l' => s' ← f s x; for_each f l' s'
  end.

(** ** Send-mode flags *)

Module SendModeEnum.
Definition carry_all_remaining_balance : Z := 128.
Definition carry_all_remaining_incoming_value : Z := 64.
Definition destroy_account_if_zero : Z := 32.
Definition ignore_errors : Z := 2.
Definition pay_gas_separately : Z := 1.
End SendModeEnum.

(** The members of the enumeration. *)
Definition send_mode_members : list Z :=
  [SendModeEnum.carry_all_remaining_balance;
   SendModeEnum.carry_all_remaining_incoming_value;
   SendModeEnum.destroy_account_if_zero;
   SendModeEnum.ignore_errors;
   SendModeEnum.pay_gas_separately].

(** [a | b | ...]: two members and any further ones, combined from the
    left.  The result is a plain integer; a lone member is an instance of
    the enumeration and is not a value of this function. *)
Definition send_mode_or (a b : Z) (rest : list Z) : Z := foldl Z.lor (Z.lor a b) rest.

(** ** Bytes and text *)

Abbreviation bytes := (list byte).

Definition byte_of_N (n : N) : byte :=
  match Byte.of_N (n mod 256) with Some b => b | None => x00 end.

(** A Python [str] is a sequence of code points. *)
Abbreviation pystr := (list N).

(** [bytes(s, 'utf-8')] for one code point; surrogates and values above
    U+10FFFF have no encoding. *)
Definition utf8_char (c : N) : option bytes :=
  if (c <? 0x80)%N then Some [byte_of_N c]
  else if (c <? 0x800)%N then
    Some [byte_of_N (0xC0 + c / 64); byte_of_N (0x80 + c mod 64)]
  else if (c <? 0x10000)%N then
    if ((0xD800 <=? c) && (c <? 0xE000))%N then None
    else Some [byte_of_N (0xE0 + c / 4096); byte_of_N (0x80 + (c / 64) mod 64);
               byte_of_N (0x80 + c mod 64)]
  else if (c <? 0x110000)%N then
    Some [byte_of_N (0xF0 + c / 262144); byte_of_N (0x80 + (c / 4096) mod 64);
          byte_of_N (0x80 + (c / 64) mod 64); byte_of_N (0x80 + c mod 64)]
  else None.

Fixpoint utf8_encode (s : pystr) : option bytes :=
  match s with
  | [] => Some []
  | c :: s' =>
      match utf8_char c, utf8_encode s' with
      | Some b, Some bs => Some (b ++ bs)
      | _, _ => None
      end
  end.

(** ** The cell engine

    Modelled from the spec: the class [Cell] of [tonsdk.boc] is not part of
    the wallet module.  Following the spec's glossary a cell is a bounded
    bit-string plus an ordered sequence of child cells; the engine offers
    [new empty tree], [append fixed-width unsigned integer], [append raw
    bytes], [append UTF-8 text], [append child branch] and [merge with
    another tree], and rejects a value that does not fit its width and a
    write past the bound. *)

#[warnings="-register-all"]
Inductive Cell := mkCell { bits : list bool; refs : list Cell }.

Definition Cell_new : Cell := mkCell [] [].

(** The ledger's bound on the bits of one cell. *)
Definition capacity : nat := 1023.

(** Big-endian bits of [n] on [w] positions. *)
Definition uint_bits (n : Z) (w : nat) : list bool :=
  map (λ i, Z.testbit n (Z.of_nat i)) (rev (seq 0 w)).

Definition byte_bits (b : byte) : list bool := uint_bits (Z.of_N (Byte.to_N b)) 8.

Definition write_bits (bs : list bool) (c : Cell) : result Cell :=
  if decide (length (bits c) + length bs ≤ capacity)%nat
  then Ok (mkCell (bits c ++ bs) (refs c))
  else Err CellError.

Definition write_uint (n : Z) (w : nat) (c : Cell) : result Cell :=
  if decide (0 ≤ n < 2 ^ Z.of_nat w) then write_bits (uint_bits n w) c
  else Err CellError.

Definition write_uint8 (n : Z) (c : Cell) : result Cell := write_uint n 8 c.

Definition write_bytes (b : bytes) (c : Cell) : result Cell :=
  for_each (λ c x, write_uint8 (Z.of_N (Byte.to_N x)) c) b c.

Definition write_string (s : pystr) (c : Cell) : result Cell :=
  match utf8_encode s with
  | Some b => write_bytes b c
  | None => Err CellError
  end.

Definition write_cell (another : Cell) (c : Cell) : result Cell :=
  c' ← write_bits (bits another) c;
  Ok (mkCell (bits c') (refs c' ++ refs another)).

Definition refs_append (child : Cell) (c : Cell) : Cell :=
  mkCell (bits c) (refs c ++ [child]).

(** ** Python values that reach the wallet *)

Inductive PyVal :=
  | VNone
  | VInt (z : Z)
  | VStr (s : pystr)
  | VBytes (b : bytes)
  | VCell (c : Cell).

Abbreviation Dict := (gmap string PyVal).

(** [d.get(k, default)] *)
Definition dict_get (d : Dict) (k : string) (dflt : PyVal) : PyVal :=
  default dflt (d !! k).

(** [k in d] *)
Definition dict_has (d : Dict) (k : string) : bool := bool_decide (is_Some (d !! k)).

(** [d[k]] *)
Definition dict_item (d : Dict) (k : string) : result PyVal :=
  match d !! k with Some v => Ok v | None => Err (KeyError k) end.

(** ** WalletMessage *)

Module WalletMessage.

Definition default_send_mode : PyVal :=
  VInt (Z.lor SendModeEnum.ignore_errors SendModeEnum.pay_gas_separately).

Record t := mk {
  address : PyVal;
  amount : PyVal;
  send_mode : PyVal;
  payload : PyVal;
  state_init : PyVal
}.

Definition to_dict (cls : t) : Dict :=
  let d : Dict :=
    <["send_mode" := send_mode cls]>
      (<["amount" := amount cls]> (<["address" := address cls]> ∅)) in
  let d : Dict :=
    match payload cls with VNone => d | p => <["payload" := p]> d end in
  let d : Dict :=
    match state_init cls with VNone => d | s => <["state_init" := s]> d end in
  d.

Definition from_dict (d : Dict) : t :=
  {| address := dict_get d "address" VNone;
     amount := dict_get d "amount" VNone;
     send_mode := dict_get d "send_mode" default_send_mode;
     payload := dict_get d "payload" VNone;
     state_init := dict_get d "state_init" VNone |}.

End WalletMessage.

(** The keys [to_dict] writes and [from_dict] reads. *)
Definition message_keys : list string :=
  ["address"; "amount"; "send_mode"; "payload"; "state_init"].

(** ** Collaborators

    What the wallet module imports and does not define: the address codec
    ([Address]), [decimal.Decimal], the truth value and the content hash of
    a cell, the signing primitive ([sign_message(...).signature]), and the
    inherited members of the base class [Contract].  A collaborator that
    raises is modelled by [None]. *)

Class Collaborators := {
  Addr : Type;
  Dec : Type;
  Address : PyVal → option Addr;
  Decimal : PyVal → option Dec;
  Cell_bool : Cell → bool;
  bytes_hash : Cell → bytes;
  sign_message : bytes → PyVal → option bytes;
  create_internal_message_header : Addr → Dec → option Cell;
  create_external_message_header : Addr → option Cell;
  create_common_msg_info : Cell → PyVal → Cell → option Cell;
  (* the constructor of the base class Contract: the options the instance keeps *)
  Contract_init : Dict → option Dict;
  (* self.create_state_init(): state_init, code, data, address *)
  create_state_init : Dict → option (Cell * Cell * Cell * Addr);
  (* the property self.address *)
  self_address : Dict → option Addr
}.

(** The elements a [for] loop over [recipients_list] can meet: a mapping, a
    [WalletMessage], or (when a bare mapping is iterated) one of its keys. *)
Inductive Recipient :=
  | RDict (d : Dict)
  | RMsg (m : WalletMessage.t)
  | RStr (k : string).

(** The values the argument [recipients_list] can take. *)
Inductive Recipients :=
  | RNone
  | RSingle (m : WalletMessage.t)
  | RList (l : list Recipient)
  | RMapping (d : Dict).

Record WalletContract := { options : Dict }.

(** The mappings the two builders return; [A] is the type of addresses. *)
Module Envelope.
Record t (A : Type) := mk {
  address : A;
  message : Cell;
  body : Cell;
  signature : bytes;
  signing_message : Cell;
  state_init : option Cell;
  code : option Cell;
  data : option Cell
}.
Arguments mk {A}.
Arguments address {A}.
Arguments message {A}.
Arguments body {A}.
Arguments signature {A}.
Arguments signing_message {A}.
Arguments state_init {A}.
Arguments code {A}.
Arguments data {A}.
End Envelope.

Module InitEnvelope.
Record t (A : Type) := mk {
  address : A;
  message : Cell;
  body : Cell;
  signing_message : Cell;
  state_init : Cell;
  code : Cell;
  data : Cell
}.
Arguments mk {A}.
Arguments address {A}.
Arguments message {A}.
Arguments body {A}.
Arguments signing_message {A}.
Arguments state_init {A}.
Arguments code {A}.
Arguments data {A}.
End InitEnvelope.

Section Wallet.
Context `{Collaborators}.

(** [bool(v)] *)
Definition truthy (v : PyVal) : bool :=
  match v with
  | VNone => false
  | VInt z => negb (z =? 0)
  | VStr s => negb (bool_decide (s = []))
  | VBytes b => negb (bool_decide (b = []))
  | VCell c => Cell_bool c
  end.

Definition WalletContract_init (kwargs : Dict) : result WalletContract :=
  if ((negb (dict_has kwargs "public_key") || negb (dict_has kwargs "private_key"))
        && negb (dict_has kwargs "address"))
     && negb (dict_has kwargs "public_keys")
  then Err RequiredKeyOrAddress
  else opts ← collab "Contract.__init__" (Contract_init kwargs);
       Ok {| options := opts |}.

Definition create_data_cell (self : WalletContract) : result Cell :=
  let cell := Cell_new in
  cell ← write_uint 0 32 cell;
  public_key ← dict_item (options self) "public_key";
  match public_key with
  | VBytes b => write_bytes b cell
  | _ => Err TypeError
  end.

Definition create_signing_message (seqno : option Z) : result Cell :=
  let seqno := match seqno with
               | Some n => if decide (n = 0) then 0 else n
               | None => 0
               end in
  let cell := Cell_new in
  write_uint seqno 32 cell.

(** Lines 98-107: the sub-cell of one recipient's payload. *)
Definition payload_cell_of (payload : PyVal) : result Cell :=
  let payload_cell := Cell_new in
  if truthy payload then
    match payload with
    | VStr s =>
        payload_cell ← write_uint 0 32 payload_cell;
        write_string s payload_cell
    | VCell c => Ok c
    | VBytes b => write_bytes b payload_cell
    | VInt _ | VNone => Err TypeError
    end
  else Ok payload_cell.

Definition write_uint8_val (v : PyVal) (c : Cell) : result Cell :=
  match v with
  | VInt z => write_uint8 z c
  | _ => Err TypeError
  end.

(** Lines 109-112: the order sub-tree of one recipient. *)
Definition order_of (recipient : WalletMessage.t) (payload_cell : Cell) : result Cell :=
  a ← collab "Address" (Address (WalletMessage.address recipient));
  d ← collab "Decimal" (Decimal (WalletMessage.amount recipient));
  order_header ← collab "create_internal_message_header"
                   (create_internal_message_header a d);
  collab "create_common_msg_info"
    (create_common_msg_info order_header (WalletMessage.state_init recipient) payload_cell).

(** Lines 96-97 and the attribute access of line 99. *)
Definition as_message (recipient : Recipient) : result WalletMessage.t :=
  match recipient with
  | RDict d => Ok (WalletMessage.from_dict d)
  | RMsg m => Ok m
  | RStr _ => Err AttributeError
  end.

(** The body of the loop of lines 95-114. *)
Definition add_recipient (signing_message : Cell) (recipient : Recipient) : result Cell :=
  recipient ← as_message recipient;
  payload_cell ← payload_cell_of (WalletMessage.payload recipient);
  order ← order_of recipient payload_cell;
  signing_message ← write_uint8_val (WalletMessage.send_mode recipient) signing_message;
  Ok (refs_append order signing_message).

(** Line 119-120: the signature of the envelope. *)
Definition signature_of (self : WalletContract) (signing_message : Cell)
    (dummy_signature : bool) : result bytes :=
  if dummy_signature then Ok (replicate 64 x00)
  else private_key ← dict_item (options self) "private_key";
       collab "sign_message" (sign_message (bytes_hash signing_message) private_key).

(** Lines 126-132: the deployment data of the envelope. *)
Definition deploy_of (self : WalletContract) (seqno : option Z)
    : result (option Cell * option Cell * option Cell) :=
  if bool_decide (seqno = Some 0)
  then '(s, c, d, _) ← collab "create_state_init" (create_state_init (options self));
       Ok (Some s, Some c, Some d)
  else Ok (None, None, None).

Definition create_external_message (self : WalletContract) (signing_message : Cell)
    (seqno : option Z) (dummy_signature : bool) : result (Envelope.t Addr) :=
  signature ← signature_of self signing_message dummy_signature;
  let body := Cell_new in
  body ← write_bytes signature body;
  body ← write_cell signing_message body;
  deploy ← deploy_of self seqno;
  let '(state_init, code, data) := deploy in
  self_address ← collab "address" (self_address (options self));
  header ← collab "create_external_message_header"
             (create_external_message_header self_address);
  result_message ← collab "create_common_msg_info"
    (create_common_msg_info header (from_option VCell VNone state_init) body);
  Ok {| Envelope.address := self_address;
        Envelope.message := result_message;
        Envelope.body := body;
        Envelope.signature := signature;
        Envelope.signing_message := signing_message;
        Envelope.state_init := state_init;
        Envelope.code := code;
        Envelope.data := data |}.

(** Lines 78-89: what the loop will iterate over. *)
Definition normalize (to_addr amount payload send_mode state_init : PyVal)
    (recipients_list : Recipients) : list Recipient :=
  match recipients_list with
  | RNone => [RMsg {| WalletMessage.address := to_addr;
                      WalletMessage.amount := amount;
                      WalletMessage.send_mode := send_mode;
                      WalletMessage.payload := payload;
                      WalletMessage.state_init := state_init |}]
  | RSingle m => [RMsg m]
  | RList l => l
  | RMapping d => RStr <$> (map_to_list d).*1
  end.

Definition create_transfer_message (self : WalletContract)
    (to_addr amount : PyVal) (seqno : option Z) (payload send_mode : PyVal)
    (dummy_signature : bool) (state_init : PyVal) (recipients_list : Recipients)
    : result (Envelope.t Addr) :=
  let recipients_list := normalize to_addr amount payload send_mode state_init recipients_list in
  if decide (4 < length recipients_list)%nat then Err ManyRecipients
  else
    signing_message ← create_signing_message seqno;
    signing_message ← for_each add_recipient recipients_list signing_message;
    create_external_message self signing_message seqno dummy_signature.

Definition create_init_external_message (self : WalletContract) : result (InitEnvelope.t Addr) :=
  '(state_init, code, data, address) ←
      collab "create_state_init" (create_state_init (options self));
  signing_message ← create_signing_message None;
  private_key ← dict_item (options self) "private_key";
  signature ← collab "sign_message" (sign_message (bytes_hash signing_message) private_key);
  let body := Cell_new in
  body ← write_bytes signature body;
  body ← write_cell signing_message body;
  header ← collab "create_external_message_header" (create_external_message_header address);
  external_message ← collab "create_common_msg_info"
    (create_common_msg_info header (VCell state_init) body);
  Ok {| InitEnvelope.address := address;
        InitEnvelope.message := external_message;
        InitEnvelope.body := body;
        InitEnvelope.signing_message := signing_message;
        InitEnvelope.state_init := state_init;
        InitEnvelope.code := code;
        InitEnvelope.data := data |}.

(** *** Notions used in the statements below *)

(** Lines 78-114 without the final call: the recipient check, the header
    and the loop. *)
Definition signing_payload (to_addr amount : PyVal) (seqno : option Z)
    (payload send_mode state_init : PyVal) (recipients_list : Recipients) : result Cell :=
  let recipients_list := normalize to_addr amount payload send_mode state_init recipients_list in
  if decide (4 < length recipients_list)%nat then Err ManyRecipients
  else signing_message ← create_signing_message seqno;
       for_each add_recipient recipients_list signing_message.

(** What one recipient contributes to the signing payload: the value [z] of
    its send-mode byte and its order sub-tree. *)
Definition branch (r : Recipient) (z : Z) (order : Cell) : Prop :=
  ∃ m payload_cell,
    as_message r = Ok m
    ∧ payload_cell_of (WalletMessage.payload m) = Ok payload_cell
    ∧ order_of m payload_cell = Ok order
    ∧ WalletMessage.send_mode m = VInt z
    ∧ 0 ≤ z < 256.


End Wallet.

(** The errors a step of payload construction can raise: never the
    recipient-count error, never a missing key. *)
Definition step_error (e : Error) : bool :=
  match e with
  | AttributeError | TypeError | CellError | CollaboratorError _ => true
  | RequiredKeyOrAddress | ManyRecipients | KeyError _ => false
  end.

(** ** A concrete set of collaborators

    Small total stand-ins for the imported parts, used to run the builders
    on concrete inputs. *)

Module Demo.

(** A stand-in for the signing primitive with signatures of 64 bytes. *)
Definition sign (h : bytes) (key : PyVal) : option bytes :=
  match key with
  | VBytes k => Some (take 64 (h ++ k ++ replicate 64 x00))
  | _ => None
  end.

Definition hash (c : Cell) : bytes :=
  [byte_of_N (N.of_nat (length (bits c))); byte_of_N (N.of_nat (length (refs c)))].

Definition parse_address (v : PyVal) : option pystr :=
  match v with
  | VStr (c :: s) => Some (c :: s)
  | _ => None
  end.

Definition decimal (v : PyVal) : option Z :=
  match v with VInt z => Some z | _ => None end.

Definition internal_header (a : pystr) (d : Z) : option Cell :=
  if decide (0 ≤ d < 2 ^ 64) then Some (mkCell (uint_bits d 64) []) else None.

Definition common_msg_info (header : Cell) (state_init : PyVal) (body : Cell) : option Cell :=
  Some (mkCell (bits header)
          (refs header ++ match state_init with VCell s => [s] | _ => [] end ++ [body])).

Definition state_init_of (opts : Dict) : option (Cell * Cell * Cell * pystr) :=
  match opts !! "public_key" with
  | Some (VBytes pk) =>
      let code := mkCell [true] [] in
      let data := mkCell (flat_map byte_bits pk) [] in
      Some (mkCell [] [code; data], code, data, [48%N; 58%N])
  | _ => None
  end.

Definition address_of (opts : Dict) : option pystr :=
  match opts !! "address" with
  | Some a => parse_address a
  | None => state_init_of opts ≫= λ d, Some d.2
  end.

Definition collaborators : Collaborators :=
  {| Addr := pystr;
     Dec := Z;
     Address := parse_address;
     Decimal := decimal;
     Cell_bool := λ c, negb (bool_decide (bits c = [])) || negb (bool_decide (length (refs c) = 0%nat));
     bytes_hash := hash;
     sign_message := sign;
     create_internal_message_header := internal_header;
     create_external_message_header := λ _, Some (mkCell [true; false] []);
     create_common_msg_info := common_msg_info;
     Contract_init := λ kwargs, Some kwargs;
     create_state_init := state_init_of;
     self_address := address_of |}.

Definition addr_A : PyVal := VStr [69%N; 81%N; 65%N].
Definition addr_B : PyVal := VStr [69%N; 81%N; 66%N].

(** A wallet made from a key pair, and one made from an address only. *)
Definition keyed : WalletContract :=
  {| options := <["public_key" := VBytes [x0a; x0b]]> (<["private_key" := VBytes [x01; x02]]> ∅) |}.
Definition keyed' : WalletContract :=
  {| options := <["public_key" := VBytes [x0a; x0b]]> (<["private_key" := VBytes [x01; x03]]> ∅) |}.
Definition watch_only : WalletContract :=
  {| options := <["address" := addr_A]> ∅ |}.

Definition msg (a : PyVal) (n : Z) (p : PyVal) : WalletMessage.t :=
  {| WalletMessage.address := a;
     WalletMessage.amount := VInt n;
     WalletMessage.send_mode := WalletMessage.default_send_mode;
     WalletMessage.payload := p;
     WalletMessage.state_init := VNone |}.

Definition one_recipient : Recipients := RList [RMsg (msg addr_A 1000000000 VNone)].

Definition mapping : Dict := <["address" := addr_A]> (<["amount" := VInt 5]> ∅).

(** The signing payload of a wallet with replay counter 5 and no recipient. *)
Definition header_5 : Cell := mkCell (uint_bits 5 32) [].

(** [create_transfer_message(seqno=..., dummy_signature=..., recipients_list=...)] *)
Definition transfer (self : WalletContract) (seqno : option Z) (dummy : bool)
    (recipients_list : Recipients) : result (Envelope.t pystr) :=
  create_transfer_message (H := collaborators) self VNone VNone seqno VNone
    WalletMessage.default_send_mode dummy VNone recipients_list.





End Demo.

(** * Properties *)

(** ** The error monad *)

Lemma bind_Ok {A B} (m : result A) (f : A → result B) (b : B) :
  m ≫= f = Ok b ↔ ∃ a, m = Ok a ∧ f a = Ok b.
Proof.
  destruct m as [a|e]; simpl; split.
  - intros Hf. by exists a.
  - by intros (a' & [= <-] & Hf).
  - done.
  - by intros (a' & [=] & _).
Qed.

Lemma bind_Err {A B} (m : result A) (f : A → result B) (e : Error) :
  m ≫= f = Err e ↔ m = Err e ∨ ∃ a, m = Ok a ∧ f a = Err e.
Proof.
  destruct m as [a|e']; simpl; split.
  - intros Hf. right. by exists a.
  - intros [[=]|(a' & [= <-] & Hf)]. done.
  - intros [= <-]. by left.
  - intros [[= <-]|(a' & [=] & _)]. done.
Qed.

Lemma is_Ok_Ok {A} (a : A) : is_Ok (Ok a).
Proof. by exists a. Qed.

Lemma not_is_Ok_Err {A} (e : Error) : ¬ is_Ok (@Err A e).
Proof. by intros [a [=]]. Qed.

Lemma collab_Ok {A} who (o : option A) a : collab who o = Ok a ↔ o = Some a.
Proof. destruct o; simpl; split; congruence. Qed.

Lemma collab_Err {A} who (o : option A) e :
  collab who o = Err e → e = CollaboratorError who.
Proof. destruct o; simpl; congruence. Qed.

(** After any of these the hypothesis [H : m ≫= f = Ok b] is split into its steps. *)
Ltac step_Ok H :=
  let a := fresh "a" in
  let Ha := fresh "Ha" in
  apply bind_Ok in H as (a & Ha & H).

(** ** The cell engine *)

Lemma length_uint_bits n w : length (uint_bits n w) = w.
Proof. unfold uint_bits. rewrite length_map, length_rev. apply length_seq. Qed.

Lemma length_byte_bits b : length (byte_bits b) = 8%nat.
Proof. apply length_uint_bits. Qed.

Lemma length_flat_map_byte_bits (b : bytes) :
  length (flat_map byte_bits b) = (8 * length b)%nat.
Proof.
  induction b as [|x b IH]; [done|].
  cbn [flat_map]. rewrite length_app, length_byte_bits, IH. simpl. lia.
Qed.

Lemma uint_bits_0 w : uint_bits 0 w = replicate w false.
Proof.
  unfold uint_bits.
  assert (length (rev (seq 0 w)) = w) as Hlen by (rewrite length_rev; apply length_seq).
  revert Hlen. generalize (rev (seq 0 w)). intros l <-.
  induction l as [|i l IH]; [done|].
  simpl. by rewrite Z.testbit_0_l, IH.
Qed.

Lemma byte_in_range (x : byte) : 0 ≤ Z.of_N (Byte.to_N x) < 2 ^ Z.of_nat 8.
Proof.
  pose proof (Byte.to_N_bounded x) as Hb.
  change (2 ^ Z.of_nat 8) with 256. lia.
Qed.

Lemma Cell_eta c : mkCell (bits c) (refs c) = c.
Proof. by destruct c. Qed.

Lemma write_bits_Ok bs c c' :
  write_bits bs c = Ok c' ↔
  (length (bits c) + length bs ≤ capacity)%nat ∧ c' = mkCell (bits c ++ bs) (refs c).
Proof.
  unfold write_bits. case_decide; split.
  - by intros [= <-].
  - by intros [_ ->].
  - done.
  - intros [? _]. lia.
Qed.

Lemma write_bits_Err bs c e : write_bits bs c = Err e → e = CellError.
Proof. unfold write_bits. case_decide; congruence. Qed.

Lemma write_uint_Ok n w c c' :
  write_uint n w c = Ok c' ↔
  0 ≤ n < 2 ^ Z.of_nat w ∧ (length (bits c) + w ≤ capacity)%nat
  ∧ c' = mkCell (bits c ++ uint_bits n w) (refs c).
Proof.
  unfold write_uint. case_decide as Hn.
  - rewrite write_bits_Ok, length_uint_bits. tauto.
  - split; [done|]. by intros [? _].
Qed.

Lemma write_uint_Err n w c e : write_uint n w c = Err e → e = CellError.
Proof. unfold write_uint. case_decide; [apply write_bits_Err | congruence]. Qed.

Lemma write_bytes_cons x b c :
  write_bytes (x :: b) c = write_uint8 (Z.of_N (Byte.to_N x)) c ≫= write_bytes b.
Proof. done. Qed.

Lemma write_bytes_Ok b c c' :
  write_bytes b c = Ok c' →
  bits c' = bits c ++ flat_map byte_bits b ∧ refs c' = refs c.
Proof.
  revert c. induction b as [|x b IH]; intros c.
  - intros [= <-]. by rewrite app_nil_r.
  - rewrite write_bytes_cons. intros Hw. step_Ok Hw.
    apply write_uint_Ok in Ha as (_ & _ & ->).
    apply IH in Hw as [-> ->]. simpl. by rewrite <- app_assoc.
Qed.

Lemma write_bytes_Err b c e : write_bytes b c = Err e → e = CellError.
Proof.
  revert c. induction b as [|x b IH]; intros c; [done|].
  rewrite write_bytes_cons. intros [Hw|(c1 & _ & Hw)]%bind_Err; [|by eapply IH].
  by eapply write_uint_Err.
Qed.

Lemma write_bytes_fits b c :
  (length (bits c) + 8 * length b ≤ capacity)%nat →
  write_bytes b c = Ok (mkCell (bits c ++ flat_map byte_bits b) (refs c)).
Proof.
  revert c. induction b as [|x b IH]; intros c Hfit.
  - simpl. by rewrite app_nil_r, Cell_eta.
  - rewrite write_bytes_cons.
    assert (write_uint8 (Z.of_N (Byte.to_N x)) c
            = Ok (mkCell (bits c ++ byte_bits x) (refs c))) as ->.
    { apply write_uint_Ok. split; [apply byte_in_range|]. simpl in Hfit. split; [lia|done]. }
    simpl. rewrite IH.
    + simpl. by rewrite <- app_assoc.
    + simpl. rewrite length_app, length_byte_bits. simpl in Hfit. lia.
Qed.

Lemma write_cell_Ok another c c' :
  write_cell another c = Ok c' ↔
  (length (bits c) + length (bits another) ≤ capacity)%nat
  ∧ c' = mkCell (bits c ++ bits another) (refs c ++ refs another).
Proof.
  unfold write_cell. rewrite bind_Ok. split.
  - intros (c1 & (Hfit & ->)%write_bits_Ok & [= <-]). done.
  - intros [Hfit ->]. eexists. split; [by apply write_bits_Ok|done].
Qed.

Lemma write_cell_Err another c e : write_cell another c = Err e → e = CellError.
Proof.
  unfold write_cell. intros [Hw|(c1 & _ & [=])]%bind_Err. by eapply write_bits_Err.
Qed.

Lemma utf8_char_nonempty c b : utf8_char c = Some b → b ≠ [].
Proof. unfold utf8_char. repeat case_match; naive_solver. Qed.

Lemma utf8_encode_nonempty s b : utf8_encode s = Some b → s ≠ [] → b ≠ [].
Proof.
  destruct s as [|c s]; [done|]. simpl.
  destruct (utf8_char c) as [b1|] eqn:Hc; [|done].
  destruct (utf8_encode s) as [b2|]; [|done].
  intros [= <-] _. apply utf8_char_nonempty in Hc. by destruct b1.
Qed.

(** ** The builders, step by step *)

Section Builders.
Context `{Collaborators}.

Lemma create_transfer_message_unfold self to_addr amount seqno payload send_mode dummy
    state_init recipients_list :
  create_transfer_message self to_addr amount seqno payload send_mode dummy state_init
    recipients_list
  = signing_payload to_addr amount seqno payload send_mode state_init recipients_list
      ≫= λ sm, create_external_message self sm seqno dummy.
Proof.
  unfold create_transfer_message, signing_payload.
  case_decide; [done|].
  by destruct (create_signing_message seqno) as [sm|e].
Qed.

Lemma create_signing_message_Ok seqno c :
  create_signing_message seqno = Ok c ↔
  0 ≤ default 0 seqno < 2 ^ 32 ∧ c = mkCell (uint_bits (default 0 seqno) 32) [].
Proof.
  unfold create_signing_message.
  assert (match seqno with Some n => if decide (n = 0) then 0 else n | None => 0 end
          = default 0 seqno) as ->.
  { destruct seqno as [n|]; [|done]. simpl. by case_decide. }
  rewrite write_uint_Ok. simpl.
  change (2 ^ Z.of_nat 32) with (2 ^ 32). unfold capacity. split.
  - by intros (? & _ & ->).
  - intros [? ->]. split; [done|]. split; [lia|done].
Qed.

Lemma create_signing_message_None :
  create_signing_message None = Ok (mkCell (uint_bits 0 32) []).
Proof. by apply create_signing_message_Ok. Qed.

Lemma create_signing_message_Err seqno e :
  create_signing_message seqno = Err e → step_error e = true.
Proof. intros ->%write_uint_Err. done. Qed.

Lemma write_uint8_val_Ok v c c' :
  write_uint8_val v c = Ok c' ↔
  ∃ z, v = VInt z ∧ 0 ≤ z < 256 ∧ (length (bits c) + 8 ≤ capacity)%nat
       ∧ c' = mkCell (bits c ++ uint_bits z 8) (refs c).
Proof.
  destruct v as [|z| | |]; simpl; try by (split; [|intros (? & [=] & _)]).
  unfold write_uint8. rewrite write_uint_Ok. change (2 ^ Z.of_nat 8) with 256. split.
  - intros (? & ? & ->). by exists z.
  - by intros (? & [= <-] & ? & ? & ->).
Qed.

Lemma write_uint8_val_Err v c e : write_uint8_val v c = Err e → step_error e = true.
Proof.
  destruct v; simpl; try by intros [= <-].
  by intros ->%write_uint_Err.
Qed.

Lemma payload_cell_of_Err payload e :
  payload_cell_of payload = Err e → step_error e = true.
Proof.
  unfold payload_cell_of. destruct (truthy payload); [|done].
  destruct payload as [|z|s|b|c]; try by intros [= <-].
  - intros [->%write_uint_Err|(c1 & _ & Hw)]%bind_Err; [done|].
    unfold write_string in Hw. destruct (utf8_encode s); [|by inversion Hw].
    by apply write_bytes_Err in Hw as ->.
  - by intros ->%write_bytes_Err.
Qed.

Lemma order_of_Err m payload_cell e :
  order_of m payload_cell = Err e → step_error e = true.
Proof.
  unfold order_of. intros He.
  repeat (apply bind_Err in He as [He|(? & _ & He)];
          [by apply collab_Err in He as ->|]).
  by apply collab_Err in He as ->.
Qed.

Lemma add_recipient_Ok sm r sm' :
  add_recipient sm r = Ok sm' ↔
  ∃ z order, branch r z order ∧ (length (bits sm) + 8 ≤ capacity)%nat
             ∧ sm' = mkCell (bits sm ++ uint_bits z 8) (refs sm ++ [order]).
Proof.
  unfold add_recipient, branch. split.
  - intros Hr. step_Ok Hr. step_Ok Hr. step_Ok Hr. step_Ok Hr.
    injection Hr as <-.
    apply write_uint8_val_Ok in Ha2 as (z & Hz & ? & ? & ->).
    exists z, a1. split; [by exists a, a0|done].
  - intros (z & order & (m & pc & Hm & Hpc & Ho & Hz & ?) & ? & ->).
    rewrite Hm; simpl. rewrite Hpc; simpl. rewrite Ho; simpl.
    assert (write_uint8_val (WalletMessage.send_mode m) sm
            = Ok (mkCell (bits sm ++ uint_bits z 8) (refs sm))) as ->; [|done].
    apply write_uint8_val_Ok. by exists z.
Qed.

Lemma add_recipient_Err sm r e : add_recipient sm r = Err e → step_error e = true.
Proof.
  unfold add_recipient. intros He.
  apply bind_Err in He as [He|(m & _ & He)]; [by destruct r; inversion He|].
  apply bind_Err in He as [He|(pc & _ & He)]; [by eapply payload_cell_of_Err|].
  apply bind_Err in He as [He|(o & _ & He)]; [by eapply order_of_Err|].
  apply bind_Err in He as [He|(c & _ & He)]; [by eapply write_uint8_val_Err|].
  done.
Qed.

Lemma for_each_add_recipient_Err l sm e :
  for_each add_recipient l sm = Err e → step_error e = true.
Proof.
  revert sm. induction l as [|r l IH]; intros sm; [done|]. simpl.
  intros [He|(sm1 & _ & He)]%bind_Err; [by eapply add_recipient_Err|by eapply IH].
Qed.

(** The loop appends, for each recipient in turn, one byte and one child. *)
Lemma for_each_add_recipient_Ok l sm sm' :
  for_each add_recipient l sm = Ok sm' →
  ∃ bs : list (Z * Cell),
    Forall2 (λ r b, branch r b.1 b.2) l bs
    ∧ bits sm' = bits sm ++ flat_map (λ b, uint_bits b.1 8) bs
    ∧ refs sm' = refs sm ++ bs.*2.
Proof.
  revert sm. induction l as [|r l IH]; intros sm.
  - intros [= <-]. exists []. by rewrite !app_nil_r.
  - simpl. intros Hl. step_Ok Hl.
    apply add_recipient_Ok in Ha as (z & order & Hb & _ & ->).
    apply IH in Hl as (bs & Hbs & -> & ->).
    exists ((z, order) :: bs). split; [by constructor|].
    simpl. by rewrite <- !app_assoc.
Qed.

Lemma for_each_add_recipient_fits l sm :
  Forall (λ r, ∃ z order, branch r z order) l →
  (length (bits sm) + 8 * length l ≤ capacity)%nat →
  is_Ok (for_each add_recipient l sm).
Proof.
  revert sm. induction l as [|r l IH]; intros sm Hall Hfit; [apply is_Ok_Ok|].
  apply Forall_cons in Hall as [(z & order & Hb) Hall]. simpl in *.
  assert (add_recipient sm r
          = Ok (mkCell (bits sm ++ uint_bits z 8) (refs sm ++ [order]))) as ->.
  { apply add_recipient_Ok. exists z, order. split; [done|]. split; [lia|done]. }
  simpl. apply IH; [done|]. simpl. rewrite length_app, length_uint_bits. lia.
Qed.

End Builders.

Section Assembler.
Context `{Collaborators}.

Lemma create_external_message_Ok self sm seqno dummy env :
  create_external_message self sm seqno dummy = Ok env →
  Envelope.signing_message env = sm
  ∧ signature_of self sm dummy = Ok (Envelope.signature env)
  ∧ deploy_of self seqno
    = Ok (Envelope.state_init env, Envelope.code env, Envelope.data env)
  ∧ Envelope.body env
    = mkCell (flat_map byte_bits (Envelope.signature env) ++ bits sm) (refs sm).
Proof.
  unfold create_external_message.
  intros He. step_Ok He. step_Ok He. step_Ok He. step_Ok He.
  destruct a2 as [[state_init code] data].
  step_Ok He. step_Ok He. step_Ok He. injection He as <-. simpl.
  apply write_bytes_Ok in Ha0 as [Hb0 Hr0].
  apply write_cell_Ok in Ha1 as [_ ->].
  rewrite Hb0, Hr0. done.
Qed.

Lemma signature_of_Err self sm dummy e :
  signature_of self sm dummy = Err e →
  step_error e = true
  ∨ dummy = false ∧ options self !! "private_key" = None ∧ e = KeyError "private_key".
Proof.
  unfold signature_of. destruct dummy; [done|].
  unfold dict_item. destruct (options self !! "private_key") as [key|] eqn:Hkey; simpl.
  - intros ->%collab_Err. by left.
  - intros [= <-]. by right.
Qed.

Lemma deploy_of_Err self seqno e : deploy_of self seqno = Err e → step_error e = true.
Proof.
  unfold deploy_of. case_bool_decide; [|done].
  intros [->%collab_Err|([[[??]?]?] & _ & [=])]%bind_Err. done.
Qed.

Lemma create_external_message_Err self sm seqno dummy e :
  create_external_message self sm seqno dummy = Err e →
  step_error e = true
  ∨ dummy = false ∧ options self !! "private_key" = None ∧ e = KeyError "private_key".
Proof.
  unfold create_external_message.
  intros He.
  apply bind_Err in He as [He|(sig & _ & He)]; [by eapply signature_of_Err|]. left.
  apply bind_Err in He as [He|(b1 & _ & He)]; [by apply write_bytes_Err in He as ->|].
  apply bind_Err in He as [He|(b2 & _ & He)]; [by apply write_cell_Err in He as ->|].
  apply bind_Err in He as [He|([[si co] da] & _ & He)]; [by eapply deploy_of_Err|].
  apply bind_Err in He as [He|(a & _ & He)]; [by apply collab_Err in He as ->|].
  apply bind_Err in He as [He|(hd & _ & He)]; [by apply collab_Err in He as ->|].
  apply bind_Err in He as [He|(rm & _ & He)]; [by apply collab_Err in He as ->|].
  done.
Qed.

Lemma signing_payload_Err to_addr amount seqno payload send_mode state_init rl e :
  signing_payload to_addr amount seqno payload send_mode state_init rl = Err e →
  e = ManyRecipients ∨ step_error e = true.
Proof.
  unfold signing_payload. case_decide; [intros [= <-]; by left|]. intros He. right.
  apply bind_Err in He as [He|(sm & _ & He)];
    [by eapply create_signing_message_Err|by eapply for_each_add_recipient_Err].
Qed.

Lemma signing_payload_Ok_size to_addr amount seqno payload send_mode state_init rl sm :
  signing_payload to_addr amount seqno payload send_mode state_init rl = Ok sm →
  length (refs sm) = length (normalize to_addr amount payload send_mode state_init rl)
  ∧ (length (refs sm) ≤ 4)%nat
  ∧ length (bits sm) = (32 + 8 * length (refs sm))%nat.
Proof.
  unfold signing_payload. intros Ha. case_decide as Hlen; [done|]. step_Ok Ha.
  apply create_signing_message_Ok in Ha0 as [_ ->].
  apply for_each_add_recipient_Ok in Ha as (bs & Hbs & -> & ->). cbn [bits refs app].
  pose proof (Forall2_length _ _ _ Hbs) as Hl. rewrite length_fmap.
  split; [done|]. split; [lia|].
  rewrite length_app, length_uint_bits. f_equal.
  clear. induction bs as [|b bs IH]; [done|].
  cbn [flat_map]. rewrite length_app, length_uint_bits, IH. simpl. lia.
Qed.

(** The steps of lines 119-137 all succeed on a payload that leaves room for
    the signature. *)
Lemma create_external_message_returns self sm seqno dummy :
  (length (bits sm) ≤ 511)%nat →
  (dummy = true
   ∨ ∃ key, options self !! "private_key" = Some key
            ∧ ∀ h, ∃ sig, sign_message h key = Some sig ∧ length sig = 64%nat) →
  (seqno = Some 0 → is_Some (create_state_init (options self))) →
  (∃ a header,
     self_address (options self) = Some a
     ∧ create_external_message_header a = Some header
     ∧ ∀ s b, is_Some (create_common_msg_info header s b)) →
  is_Ok (create_external_message self sm seqno dummy).
Proof.
  intros Hsm Hsign Hdeploy (a & header & Ha & Hh & Hinfo).
  assert (∃ sig, signature_of self sm dummy = Ok sig ∧ length sig = 64%nat)
    as (sig & Hsig & Hlen).
  { unfold signature_of. destruct Hsign as [->|(key & Hkey & Hs)].
    - by exists (replicate 64 x00).
    - destruct dummy; [by exists (replicate 64 x00)|].
      destruct (Hs (bytes_hash sm)) as (sig & Hsig & Hlen). exists sig.
      unfold dict_item. rewrite Hkey. cbn [mbind result_bind]. by rewrite Hsig. }
  assert (∃ d, deploy_of self seqno = Ok d) as ([[si co] da] & Hd).
  { unfold deploy_of. case_bool_decide as Hs; [|by eexists].
    destruct (Hdeploy Hs) as [[[[s c] d] ad] ->]. by eexists. }
  unfold create_external_message. rewrite Hsig. cbn [mbind result_bind].
  rewrite write_bytes_fits by (cbn; rewrite Hlen; unfold capacity; lia).
  cbn [mbind result_bind bits refs app Cell_new].
  assert (write_cell sm (mkCell (flat_map byte_bits sig) [])
          = Ok (mkCell (flat_map byte_bits sig ++ bits sm) (refs sm))) as ->.
  { apply write_cell_Ok. cbn [bits refs app]. split; [|done].
    rewrite length_flat_map_byte_bits, Hlen. unfold capacity. lia. }
  cbn [mbind result_bind]. rewrite Hd. cbn [mbind result_bind].
  rewrite Ha. cbn [collab mbind result_bind]. rewrite Hh. cbn [collab mbind result_bind].
  destruct (Hinfo (from_option VCell VNone si)
              (mkCell (flat_map byte_bits sig ++ bits sm) (refs sm))) as [m ->].
  cbn [collab mbind result_bind]. by eexists.
Qed.

End Assembler.

Lemma write_bytes_Ok_iff b c c' :
  (length (bits c) ≤ capacity)%nat →
  write_bytes b c = Ok c' ↔
  (length (bits c) + 8 * length b ≤ capacity)%nat
  ∧ c' = mkCell (bits c ++ flat_map byte_bits b) (refs c).
Proof.
  intros Hc. split; [|intros [Hfit ->]; by apply write_bytes_fits].
  revert c Hc. induction b as [|x b IH]; intros c Hc.
  - intros [= <-]. simpl. rewrite app_nil_r, Cell_eta. split; [lia|done].
  - rewrite write_bytes_cons. intros Hw. step_Ok Hw.
    apply write_uint_Ok in Ha as (_ & Hfit & ->).
    apply IH in Hw as [Hfit' ->]; simpl in *.
    + rewrite length_app, length_uint_bits in Hfit'. rewrite <- app_assoc.
      split; [lia|done].
    + rewrite length_app, length_uint_bits. lia.
Qed.

(** The [i]-th group of eight bits of a sequence of bytes. *)
Lemma take_drop_flat_map_8 {A} (f : A → list bool) (bs : list A) (i : nat) (b : A) :
  (∀ x, length (f x) = 8%nat) →
  bs !! i = Some b →
  take 8 (drop (8 * i) (flat_map f bs)) = f b.
Proof.
  intros Hlen. revert bs. induction i as [|i IH]; intros [|x bs] Hb; try done.
  - injection Hb as ->. change (8 * 0)%nat with 0%nat. cbn [flat_map]. rewrite drop_0.
    by rewrite take_app_length'.
  - simpl in Hb. cbn [flat_map].
    replace (8 * S i)%nat with (length (f x) + 8 * i)%nat by (rewrite Hlen; lia).
    rewrite drop_app_add. by apply IH.
Qed.

(** * The claims *)

Section Claims.
Context `{Collaborators}.

(** C1. The envelope returned by [create_transfer_message] carries
    deployment data ([state_init], [code], [data] all non-null) if and only
    if the [seqno] argument equals 0; for any other [seqno], in particular
    every [seqno > 0], the three fields are null. *)
Theorem deployment_data_iff_seqno_zero self to_addr amount seqno payload send_mode dummy
    state_init recipients_list env :
  create_transfer_message self to_addr amount seqno payload send_mode dummy state_init
    recipients_list = Ok env →
  ((is_Some (Envelope.state_init env) ∧ is_Some (Envelope.code env)
    ∧ is_Some (Envelope.data env)) ↔ seqno = Some 0)
  ∧ (seqno ≠ Some 0 →
     Envelope.state_init env = None ∧ Envelope.code env = None ∧ Envelope.data env = None).
Proof.
  rewrite create_transfer_message_unfold. intros He. step_Ok He.
  apply create_external_message_Ok in He as (_ & _ & Hd & _).
  unfold deploy_of in Hd. case_bool_decide as Hs.
  - step_Ok Hd. destruct a0 as [[[s c] d] ad]. injection Hd as <- <- <-.
    split; [|done]. split; [done|]. intros _. by repeat split.
  - injection Hd as <- <- <-. split; [|done].
    split; [|done]. by intros ([? [=]] & _).
Qed.

(** C10. With the [seqno] argument absent the header of the signing payload
    holds the replay counter 0 on its 32 bits, and yet the envelope carries
    no deployment data: line 128 compares the argument as it was passed. *)
Theorem absent_seqno_counter_zero_no_deploy self to_addr amount payload send_mode dummy
    state_init recipients_list env :
  create_transfer_message self to_addr amount None payload send_mode dummy state_init
    recipients_list = Ok env →
  take 32 (bits (Envelope.signing_message env)) = uint_bits 0 32
  ∧ Envelope.state_init env = None
  ∧ Envelope.code env = None
  ∧ Envelope.data env = None.
Proof.
  rewrite create_transfer_message_unfold. intros He. step_Ok He.
  apply create_external_message_Ok in He as (-> & _ & Hd & _).
  injection Hd as <- <- <-. split; [|done].
  unfold signing_payload in Ha. case_decide; [done|]. step_Ok Ha.
  apply create_signing_message_Ok in Ha0 as [_ ->].
  apply for_each_add_recipient_Ok in Ha as (bs & _ & -> & _). simpl bits.
  by rewrite take_app_length' by (by rewrite length_uint_bits).
Qed.

(** C6. [from_dict (to_dict m)] is [m] for every instruction [m]; and
    [from_dict] of a mapping that omits [send_mode], [payload] or
    [state_init] fills in [ignore_errors | pay_gas_separately] (that is 3),
    absent and absent. *)
Theorem to_dict_from_dict_roundtrip (m : WalletMessage.t) (d : Dict) :
  WalletMessage.from_dict (WalletMessage.to_dict m) = m
  ∧ WalletMessage.send_mode (WalletMessage.from_dict (delete "send_mode" d))
    = VInt (Z.lor SendModeEnum.ignore_errors SendModeEnum.pay_gas_separately)
  ∧ Z.lor SendModeEnum.ignore_errors SendModeEnum.pay_gas_separately = 3
  ∧ WalletMessage.payload (WalletMessage.from_dict (delete "payload" d)) = VNone
  ∧ WalletMessage.state_init (WalletMessage.from_dict (delete "state_init" d)) = VNone.
Proof.
  split.
  - destruct m as [a n sm p si].
    unfold WalletMessage.from_dict, WalletMessage.to_dict, dict_get. simpl.
    destruct p, si; f_equal; by simplify_map_eq.
  - unfold WalletMessage.from_dict, dict_get. simpl.
    by rewrite !lookup_delete_eq.
Qed.

(** C7. The constructor raises its own error exactly when the options hold
    neither both keys, nor an address, nor [public_keys]; with any of the
    three present this error is not raised. *)
Theorem constructor_check (kwargs : Dict) :
  WalletContract_init kwargs = Err RequiredKeyOrAddress
  ↔ ¬ ((is_Some (kwargs !! "public_key") ∧ is_Some (kwargs !! "private_key"))
       ∨ is_Some (kwargs !! "address")
       ∨ is_Some (kwargs !! "public_keys")).
Proof.
  unfold WalletContract_init, dict_has.
  repeat case_bool_decide; simpl; (split; [|first [done|tauto]]).
  all: first [ intros [Hc%collab_Err|(? & _ & [=])]%bind_Err; done | tauto ].
Qed.

(** C5. For every list of at most four instructions and every ordering [l]
    of it, the signing payload built from [l] has one child per instruction,
    in the order of [l]: the [i]-th child is the order sub-tree of the
    [i]-th instruction, and the [i]-th byte after the 32-bit header is that
    instruction's send mode. *)
Theorem branches_follow_input_order self to_addr amount seqno payload send_mode dummy
    state_init (l0 l : list Recipient) env :
  (length l0 ≤ 4)%nat →
  l0 ≡ₚ l →
  create_transfer_message self to_addr amount seqno payload send_mode dummy state_init
    (RList l) = Ok env →
  length (refs (Envelope.signing_message env)) = length l
  ∧ length (bits (Envelope.signing_message env)) = (32 + 8 * length l)%nat
  ∧ ∀ i r, l !! i = Some r →
      ∃ z order,
        branch r z order
        ∧ refs (Envelope.signing_message env) !! i = Some order
        ∧ take 8 (drop (32 + 8 * i) (bits (Envelope.signing_message env))) = uint_bits z 8.
Proof.
  intros _ _. rewrite create_transfer_message_unfold. intros He. step_Ok He.
  apply create_external_message_Ok in He as (-> & _).
  unfold signing_payload in Ha. simpl in Ha. case_decide; [done|]. step_Ok Ha.
  apply create_signing_message_Ok in Ha0 as [_ ->].
  apply for_each_add_recipient_Ok in Ha as (bs & Hbs & -> & ->). cbn [bits refs app].
  pose proof (Forall2_length _ _ _ Hbs) as Hlen.
  split; [by rewrite length_fmap|]. split.
  - rewrite length_app, length_uint_bits. f_equal. rewrite Hlen.
    clear. induction bs as [|b bs IH]; [done|].
    cbn [flat_map]. rewrite length_app, length_uint_bits, IH. simpl. lia.
  - intros i r Hr.
    destruct (Forall2_lookup_l _ _ _ _ _ Hbs Hr) as ([z order] & Hb & Hbr).
    exists z, order. split; [done|]. split.
    + by rewrite list_lookup_fmap, Hb.
    + replace (32 + 8 * i)%nat with (length (uint_bits (default 0%Z seqno) 32) + 8 * i)%nat
        by by rewrite length_uint_bits.
      rewrite drop_app_add.
      apply (take_drop_flat_map_8 (λ b, uint_bits b.1 8) bs i (z, order)); [|done].
      intros x. apply length_uint_bits.
Qed.

(** C4 (as amended). The payload of an instruction is serialised by type:
    a non-empty text gives a sub-cell of 32 zero bits followed by the bits
    of its UTF-8 bytes; a pre-built cell is used as it is when the engine
    counts it as true and replaced by a new empty cell otherwise; raw bytes
    are written with no marker; an absent payload, and likewise the empty
    text, gives an empty sub-cell.  A sub-cell is produced exactly when the
    bits fit in one cell. *)
Theorem payload_dispatch (payload : PyVal) (c : Cell) :
  payload_cell_of payload = Ok c ↔
  match payload with
  | VNone => c = Cell_new
  | VStr s =>
      if decide (s = []) then c = Cell_new
      else ∃ b, utf8_encode s = Some b
                ∧ (32 + 8 * length b ≤ capacity)%nat
                ∧ c = mkCell (replicate 32 false ++ flat_map byte_bits b) []
  | VCell p => c = if Cell_bool p then p else Cell_new
  | VBytes b => (8 * length b ≤ capacity)%nat ∧ c = mkCell (flat_map byte_bits b) []
  | VInt z => z = 0 ∧ c = Cell_new
  end.
Proof.
  unfold payload_cell_of. destruct payload as [|z|s|b|p]; cbn [truthy].
  - split; [by intros [= <-]|by intros ->].
  - destruct (Z.eqb_spec z 0) as [->|Hz]; cbn [negb].
    + split; [by intros [= <-]|by intros [_ ->]].
    + split; [done|by intros [? _]].
  - case_bool_decide as Hs; case_decide; try done; cbn [negb].
    { split; [by intros [= <-]|by intros ->]. }
    rewrite bind_Ok. unfold write_string. rewrite <- uint_bits_0. split.
    + intros (c1 & (_ & _ & ->)%write_uint_Ok & Hw).
      destruct (utf8_encode s) as [b|]; [|done]. exists b. split; [done|].
      apply write_bytes_Ok_iff in Hw as [Hfit ->]; unfold Cell_new in *; cbn [bits refs app] in *.
      * rewrite length_uint_bits in Hfit. done.
      * rewrite length_uint_bits. unfold capacity. lia.
    + intros (b & -> & Hfit & ->). exists (mkCell (uint_bits 0 32) []). split.
      * apply write_uint_Ok. split; [done|]. split; [unfold capacity; cbn; lia|done].
      * apply write_bytes_Ok_iff; cbn [bits refs app]; rewrite length_uint_bits;
          [unfold capacity; lia|done].
  - case_bool_decide as Hb; cbn [negb].
    + subst b. split; [intros [= <-]|intros [_ ->]]; [|done].
      split; [cbn; unfold capacity; lia|done].
    + rewrite write_bytes_Ok_iff by (cbn; lia). done.
  - destruct (Cell_bool p); split; first [by intros [= <-]|by intros ->].
Qed.

(** C2 (as amended). A list of at most four recipients passes the
    recipient check: the call never raises the recipient-count error, and it
    succeeds, returning an envelope, whenever the replay counter fits 32
    bits, each instruction yields its branch, the signature is a dummy one
    or the wallet holds a private key that the primitive signs into 64
    bytes, the deployment package is available when [seqno] is 0, and the
    wallet's address and the message headers are built.  A list of five or
    more raises the recipient-count error, whatever the other arguments
    are. *)
Theorem recipient_count_check self to_addr amount seqno payload send_mode dummy state_init
    (l : list Recipient) :
  ((length l ≤ 4)%nat →
   create_transfer_message self to_addr amount seqno payload send_mode dummy state_init
     (RList l) ≠ Err ManyRecipients
   ∧ (0 ≤ default 0 seqno < 2 ^ 32 →
      Forall (λ r, ∃ z order, branch r z order) l →
      (dummy = true
       ∨ ∃ key, options self !! "private_key" = Some key
                ∧ ∀ h, ∃ sig, sign_message h key = Some sig ∧ length sig = 64%nat) →
      (seqno = Some 0 → is_Some (create_state_init (options self))) →
      (∃ a header,
         self_address (options self) = Some a
         ∧ create_external_message_header a = Some header
         ∧ ∀ s b, is_Some (create_common_msg_info header s b)) →
      is_Ok (create_transfer_message self to_addr amount seqno payload send_mode dummy
               state_init (RList l))))
  ∧ ((5 ≤ length l)%nat →
     create_transfer_message self to_addr amount seqno payload send_mode dummy state_init
       (RList l) = Err ManyRecipients).
Proof.
  split.
  - intros Hlen. rewrite create_transfer_message_unfold. split.
    + intros [He|(sm & _ & He)]%bind_Err.
      * unfold signing_payload in He. cbn [normalize] in He.
        case_decide; [lia|].
        apply bind_Err in He as [He|(sm & _ & He)];
          [by apply create_signing_message_Err in He
          |by apply for_each_add_recipient_Err in He].
      * by apply create_external_message_Err in He as [He|(_ & _ & [=])].
    + intros Hseqno Hall Hsign Hdeploy Hheaders.
      assert (∃ sm, signing_payload to_addr amount seqno payload send_mode state_init
                      (RList l) = Ok sm) as [sm Hsm].
      { unfold signing_payload. cbn [normalize]. case_decide; [lia|].
        assert (create_signing_message seqno
                = Ok (mkCell (uint_bits (default 0 seqno) 32) [])) as ->
          by by apply create_signing_message_Ok.
        apply (for_each_add_recipient_fits l); [done|].
        cbn [bits]. rewrite length_uint_bits. unfold capacity. lia. }
      rewrite Hsm. cbn [mbind result_bind].
      apply create_external_message_returns; try done.
      apply signing_payload_Ok_size in Hsm as (_ & Hrefs & ->). lia.
  - intros Hlen. unfold create_transfer_message. cbn [normalize].
    case_decide; [done|lia].
Qed.

(** C8. A wallet without a private key cannot sign for real: with
    [dummy_signature = false] the signing step raises the missing-key error,
    so neither [create_transfer_message] nor [create_init_external_message]
    returns an envelope, and the error is the missing key as soon as the
    steps that come before the signature succeed.  With
    [dummy_signature = true] the private key is not looked up and this error
    is not raised. *)
Theorem missing_private_key self to_addr amount seqno payload send_mode state_init
    recipients_list sm :
  options self !! "private_key" = None →
  create_external_message self sm seqno false = Err (KeyError "private_key")
  ∧ ¬ is_Ok (create_transfer_message self to_addr amount seqno payload send_mode false
               state_init recipients_list)
  ∧ (is_Ok (signing_payload to_addr amount seqno payload send_mode state_init recipients_list) →
     create_transfer_message self to_addr amount seqno payload send_mode false
       state_init recipients_list = Err (KeyError "private_key"))
  ∧ ¬ is_Ok (create_init_external_message self)
  ∧ (is_Some (create_state_init (options self)) →
     create_init_external_message self = Err (KeyError "private_key"))
  ∧ create_external_message self sm seqno true ≠ Err (KeyError "private_key")
  ∧ create_transfer_message self to_addr amount seqno payload send_mode true
      state_init recipients_list ≠ Err (KeyError "private_key").
Proof.
  intros Hkey.
  assert (∀ sm', create_external_message self sm' seqno false = Err (KeyError "private_key"))
    as Hreal.
  { intros sm'. unfold create_external_message, signature_of, dict_item. by rewrite Hkey. }
  assert (∀ sm', create_external_message self sm' seqno true ≠ Err (KeyError "private_key"))
    as Hdummy.
  { intros sm' He. by apply create_external_message_Err in He as [He|(? & _)]. }
  split; [done|]. rewrite !create_transfer_message_unfold.
  split; [|split; [|split; [|split; [|split]]]].
  - intros [env He]. step_Ok He. by rewrite Hreal in He.
  - intros [sm' ->]. apply Hreal.
  - intros [env He]. unfold create_init_external_message in He.
    step_Ok He. destruct a as [[[si co] da] ad].
    step_Ok He. step_Ok He. unfold dict_item in Ha1. by rewrite Hkey in Ha1.
  - intros [[[[si co] da] ad] Hsi]. unfold create_init_external_message.
    rewrite Hsi. cbn [collab mbind result_bind]. rewrite create_signing_message_None.
    unfold dict_item. by rewrite Hkey.
  - done.
  - intros [He|(sm' & _ & He)]%bind_Err; [|by apply Hdummy in He].
    by apply signing_payload_Err in He as [He|He].
Qed.

(** C9 (as amended). A single [WalletMessage] passed as [recipients_list]
    gives what the one-element list holding it gives, and a mapping inside a
    list gives what its [from_dict] gives.  A bare mapping is not wrapped:
    the loop runs over its keys, and a mapping with at least one key never
    yields an envelope. *)
Theorem singular_forms self to_addr amount seqno payload send_mode dummy state_init
    (m : WalletMessage.t) (d : Dict) (k : string) (v : PyVal) :
  create_transfer_message self to_addr amount seqno payload send_mode dummy state_init
    (RSingle m)
  = create_transfer_message self to_addr amount seqno payload send_mode dummy state_init
      (RList [RMsg m])
  ∧ create_transfer_message self to_addr amount seqno payload send_mode dummy state_init
      (RList [RDict d])
    = create_transfer_message self to_addr amount seqno payload send_mode dummy state_init
        (RList [RMsg (WalletMessage.from_dict d)])
  ∧ ¬ is_Ok (create_transfer_message self to_addr amount seqno payload send_mode dummy
               state_init (RMapping (<[k:=v]> d))).
Proof.
  split; [done|]. split; [done|].
  intros [env He]. unfold create_transfer_message in He. cbn [normalize] in He.
  case_decide; [done|]. step_Ok He. step_Ok He.
  destruct (map_to_list (<[k:=v]> d)) as [|[k' v'] kvs] eqn:Hkvs.
  - apply map_to_list_empty_iff in Hkvs. by apply insert_non_empty in Hkvs.
  - done.
Qed.


End Claims.

(** * The claims on concrete inputs *)

Lemma deployment_data_iff_seqno_zero_witness :
  ∃ env,
    Demo.transfer Demo.keyed (Some 0) false Demo.one_recipient = Ok env
    ∧ ((is_Some (Envelope.state_init env) ∧ is_Some (Envelope.code env)
        ∧ is_Some (Envelope.data env)) ↔ Some 0 = Some 0)
    ∧ (Some 0 ≠ Some 0 →
       Envelope.state_init env = None ∧ Envelope.code env = None
       ∧ Envelope.data env = None).
Proof.
  eexists. split; [vm_compute; reflexivity|].
  apply (@deployment_data_iff_seqno_zero Demo.collaborators Demo.keyed VNone VNone (Some 0)
           VNone WalletMessage.default_send_mode false VNone Demo.one_recipient).
  vm_compute. reflexivity.
Defined.

Lemma absent_seqno_counter_zero_no_deploy_witness :
  ∃ env,
    Demo.transfer Demo.keyed None false Demo.one_recipient = Ok env
    ∧ take 32 (bits (Envelope.signing_message env)) = uint_bits 0 32
    ∧ Envelope.state_init env = None
    ∧ Envelope.code env = None
    ∧ Envelope.data env = None.
Proof.
  eexists. split; [vm_compute; reflexivity|].
  apply (@absent_seqno_counter_zero_no_deploy Demo.collaborators Demo.keyed VNone VNone
           VNone WalletMessage.default_send_mode false VNone Demo.one_recipient).
  vm_compute. reflexivity.
Defined.

Lemma branches_follow_input_order_witness :
  let a := RMsg (Demo.msg Demo.addr_A 1000000000 VNone) in
  let b := RDict Demo.mapping in
  ∃ env,
    Demo.transfer Demo.keyed (Some 5) true (RList [b; a]) = Ok env
    ∧ length (refs (Envelope.signing_message env)) = 2%nat
    ∧ length (bits (Envelope.signing_message env)) = 48%nat
    ∧ ∀ i r, [b; a] !! i = Some r →
        ∃ z order,
          branch (H := Demo.collaborators) r z order
          ∧ refs (Envelope.signing_message env) !! i = Some order
          ∧ take 8 (drop (32 + 8 * i) (bits (Envelope.signing_message env)))
            = uint_bits z 8.
Proof.
  intros a b. eexists. split; [vm_compute; reflexivity|].
  apply (@branches_follow_input_order Demo.collaborators Demo.keyed VNone VNone (Some 5)
           VNone WalletMessage.default_send_mode true VNone [a; b] [b; a]).
  - simpl. lia.
  - apply perm_swap.
  - vm_compute. reflexivity.
Defined.

Lemma missing_private_key_witness :
  options Demo.watch_only !! "private_key" = None
  ∧ Demo.transfer Demo.watch_only (Some 5) false Demo.one_recipient
    = Err (KeyError "private_key")
  ∧ Demo.transfer Demo.watch_only (Some 5) true Demo.one_recipient
    ≠ Err (KeyError "private_key").
Proof.
  assert (options Demo.watch_only !! "private_key" = None) as Hkey
    by (vm_compute; reflexivity).
  split; [exact Hkey|].
  destruct (@missing_private_key Demo.collaborators Demo.watch_only VNone VNone (Some 5)
              VNone WalletMessage.default_send_mode VNone Demo.one_recipient
              Demo.header_5 Hkey)
    as (_ & _ & Hreal & _ & _ & _ & Hdummy).
  split; [|exact Hdummy].
  apply Hreal. eexists. vm_compute. reflexivity.
Defined.



Lemma recipient_count_check_witness :
  let r := RMsg (Demo.msg Demo.addr_A 1000000000 VNone) in
  is_Ok (Demo.transfer Demo.keyed (Some 0) false (RList [r; r; r; r]))
  ∧ Demo.transfer Demo.keyed (Some 0) false (RList [r; r; r; r; r]) = Err ManyRecipients.
Proof.
  intros r.
  assert (∃ z order, branch (H := Demo.collaborators) r z order) as Hr.
  { unfold branch. eexists _, _, _, _.
    split; [reflexivity|]. split; [reflexivity|]. split; [reflexivity|].
    split; [reflexivity|]. change (0 ≤ 3 < 256). lia. }
  split.
  - destruct (@recipient_count_check Demo.collaborators Demo.keyed VNone VNone (Some 0) VNone
                WalletMessage.default_send_mode false VNone [r; r; r; r]) as [Hpass _].
    destruct Hpass as [_ Hbuilt]; [simpl; lia|].
    apply Hbuilt.
    + simpl. lia.
    + by repeat constructor.
    + right. exists (VBytes [x01; x02]). split; [vm_compute; reflexivity|].
      intros h. eexists. split; [reflexivity|].
      rewrite length_take, !length_app, length_replicate. lia.
    + intros _. eexists. vm_compute. reflexivity.
    + eexists _, _. split; [vm_compute; reflexivity|]. split; [reflexivity|].
      intros s b. by eexists.
  - apply (@recipient_count_check Demo.collaborators Demo.keyed VNone VNone (Some 0) VNone
             WalletMessage.default_send_mode false VNone [r; r; r; r; r]).
    simpl. lia.
Defined.

Lemma payload_dispatch_witness :
  payload_cell_of (H := Demo.collaborators) (VStr [104%N; 105%N])
  = Ok (mkCell (replicate 32 false ++ flat_map byte_bits [x68; x69]) []).
Proof.
  apply (@payload_dispatch Demo.collaborators).
  case_decide; [done|]. exists [x68; x69].
  split; [reflexivity|]. split; [|reflexivity]. unfold capacity. simpl. lia.
Defined.

(** ** Where the claims as written fail *)

(** C2: a list of one recipient, and no envelope: the wallet was built from
    an address only and a real signature is asked for. *)
Lemma recipient_count_check_counterexample :
  (length [RMsg (Demo.msg Demo.addr_A 1000000000 VNone)] ≤ 4)%nat
  ∧ WalletContract_init (H := Demo.collaborators) (<["address" := Demo.addr_A]> ∅)
    = Ok Demo.watch_only
  ∧ Demo.transfer Demo.watch_only (Some 5) false
      (RList [RMsg (Demo.msg Demo.addr_A 1000000000 VNone)])
    = Err (KeyError "private_key").
Proof. split; [simpl; lia|]. split; vm_compute; reflexivity. Qed.

(** C4: the empty text is a text payload, and its sub-cell is empty: it does
    not begin with the 32-bit zero marker. *)
Lemma payload_dispatch_counterexample :
  payload_cell_of (H := Demo.collaborators) (VStr []) = Ok Cell_new
  ∧ take 32 (bits Cell_new) ≠ replicate 32 false.
Proof. split; [reflexivity|]. vm_compute. discriminate. Qed.

(** C9: a bare mapping raises where the list holding it gives an envelope. *)
Lemma singular_forms_counterexample :
  Demo.transfer Demo.keyed (Some 5) true (RMapping Demo.mapping) = Err AttributeError
  ∧ is_Ok (Demo.transfer Demo.keyed (Some 5) true (RList [RDict Demo.mapping])).
Proof. split; [vm_compute; reflexivity|]. eexists. vm_compute. reflexivity. Qed.

(** * Further properties of the wallet module *)

Lemma uint_bits_inj n m w :
  0 ≤ n < 2 ^ Z.of_nat w → 0 ≤ m < 2 ^ Z.of_nat w →
  uint_bits n w = uint_bits m w → n = m.
Proof.
  intros Hn Hm Heq. apply Z.bits_inj'. intros i Hi.
  destruct (decide (i < Z.of_nat w)) as [Hlt|Hge].
  - unfold uint_bits in Heq.
    pose proof (proj1 List.map_ext_in_iff Heq (Z.to_nat i)) as Hi'.
    simpl in Hi'. rewrite Z2Nat.id in Hi' by done. apply Hi'.
    apply List.in_rev. rewrite rev_involutive. apply List.in_seq. lia.
  - rewrite <- (Z.mod_small n (2 ^ Z.of_nat w)), <- (Z.mod_small m (2 ^ Z.of_nat w)) by done.
    rewrite !Z.mod_pow2_bits_high by lia. done.
Qed.

Lemma write_bytes_overflow b c :
  (length (bits c) ≤ capacity)%nat →
  ¬ (length (bits c) + 8 * length b ≤ capacity)%nat →
  write_bytes b c = Err CellError.
Proof.
  intros Hc Hfit. destruct (write_bytes b c) as [c'|e] eqn:Hw.
  - apply write_bytes_Ok_iff in Hw as [? _]; done.
  - by apply write_bytes_Err in Hw as ->.
Qed.

Lemma to_dict_lookup (m : WalletMessage.t) (k : string) :
  WalletMessage.to_dict m !! k
  = if decide (k = "address") then Some (WalletMessage.address m)
    else if decide (k = "amount") then Some (WalletMessage.amount m)
    else if decide (k = "send_mode") then Some (WalletMessage.send_mode m)
    else if decide (k = "payload") then
      match WalletMessage.payload m with VNone => None | p => Some p end
    else if decide (k = "state_init") then
      match WalletMessage.state_init m with VNone => None | s => Some s end
    else None.
Proof.
  destruct m as [a n sm p si]. unfold WalletMessage.to_dict. cbn.
  destruct p, si; repeat case_decide; subst; by simplify_map_eq.
Qed.

Section Further.
Context `{Collaborators}.

(** What a returned envelope records of the steps of lines 119-137. *)
Lemma create_external_message_inv self sm seqno dummy env :
  create_external_message self sm seqno dummy = Ok env →
  Envelope.signing_message env = sm
  ∧ Envelope.body env
    = mkCell (flat_map byte_bits (Envelope.signature env) ++ bits sm) (refs sm)
  ∧ (8 * length (Envelope.signature env) + length (bits sm) ≤ capacity)%nat
  ∧ self_address (options self) = Some (Envelope.address env)
  ∧ ∃ header,
      create_external_message_header (Envelope.address env) = Some header
      ∧ create_common_msg_info header
          (from_option VCell VNone (Envelope.state_init env)) (Envelope.body env)
        = Some (Envelope.message env).
Proof.
  unfold create_external_message.
  intros He. step_Ok He. step_Ok He. step_Ok He. step_Ok He.
  destruct a2 as [[state_init code] data].
  step_Ok He. step_Ok He. step_Ok He. injection He as <-. cbn.
  apply write_bytes_Ok_iff in Ha0 as [Hfit ->]; [|cbn; lia].
  apply write_cell_Ok in Ha1 as [Hfit' ->]. cbn in *.
  rewrite length_flat_map_byte_bits in Hfit'.
  apply collab_Ok in Ha3, Ha4, Ha5.
  split; [done|]. split; [done|]. split; [lia|]. split; [done|]. eauto.
Qed.

(** What a returned deployment envelope records of lines 151-167. *)
Lemma create_init_external_message_inv self ie :
  create_init_external_message self = Ok ie →
  create_state_init (options self)
  = Some (InitEnvelope.state_init ie, InitEnvelope.code ie, InitEnvelope.data ie,
          InitEnvelope.address ie)
  ∧ InitEnvelope.signing_message ie = mkCell (replicate 32 false) []
  ∧ ∃ key sig,
      options self !! "private_key" = Some key
      ∧ sign_message (bytes_hash (InitEnvelope.signing_message ie)) key = Some sig
      ∧ InitEnvelope.body ie = mkCell (flat_map byte_bits sig ++ replicate 32 false) []
      ∧ ∃ header,
          create_external_message_header (InitEnvelope.address ie) = Some header
          ∧ create_common_msg_info header (VCell (InitEnvelope.state_init ie))
              (InitEnvelope.body ie)
            = Some (InitEnvelope.message ie).
Proof.
  unfold create_init_external_message. intros He.
  step_Ok He. destruct a as [[[si co] da] ad].
  step_Ok He. step_Ok He. step_Ok He. step_Ok He. step_Ok He. step_Ok He. step_Ok He.
  injection He as <-. cbn -[replicate].
  rewrite create_signing_message_None in Ha0. injection Ha0 as <-.
  rewrite uint_bits_0 in *.
  apply collab_Ok in Ha, Ha2, Ha5, Ha6.
  unfold dict_item in Ha1.
  destruct (options self !! "private_key") as [key|] eqn:Hkey; [|done].
  injection Ha1 as <-.
  apply write_bytes_Ok_iff in Ha3 as [_ ->]; [|cbn; lia].
  apply write_cell_Ok in Ha4 as [_ ->]. unfold Cell_new in *. cbn [bits refs app] in *.
  split; [done|]. split; [done|]. exists key, a1. eauto 10.
Qed.

(** X1. [create_data_cell] (lines 58-62): without a public key in the
    options it raises [KeyError]; with a public key of bytes it returns the
    cell of 32 zero bits followed by the bits of the key, with no child, or
    raises the cell engine's error when the key does not fit. *)
Theorem data_cell_layout (self : WalletContract) :
  match options self !! "public_key" with
  | None => create_data_cell self = Err (KeyError "public_key")
  | Some (VBytes b) =>
      create_data_cell self
      = if decide (32 + 8 * length b ≤ capacity)%nat
        then Ok (mkCell (replicate 32 false ++ flat_map byte_bits b) [])
        else Err CellError
  | Some _ => True
  end.
Proof.
  unfold create_data_cell.
  assert (write_uint 0 32 Cell_new = Ok (mkCell (uint_bits 0 32) [])) as ->.
  { apply write_uint_Ok. split; [done|]. split; [unfold capacity; cbn; lia|done]. }
  cbn [mbind result_bind]. unfold dict_item.
  destruct (options self !! "public_key") as [[| | |b|]|]; try done.
  cbn [mbind result_bind]. rewrite <- uint_bits_0. case_decide as Hfit.
  - rewrite write_bytes_fits; [done|]. cbn [bits]. by rewrite length_uint_bits.
  - apply write_bytes_overflow; cbn [bits]; rewrite length_uint_bits; [unfold capacity; lia|done].
Qed.

(** X2. [create_signing_message] (lines 64-68): an absent counter is the
    counter 0; a counter from 0 to 2^32 - 1 gives the cell of its 32 bits
    with no child; a counter of 2^32 or more is refused; and two
    non-negative counters that give the same cell are equal. *)
Theorem signing_message_header (n n' : Z) (c : Cell) :
  create_signing_message None = create_signing_message (Some 0)
  ∧ (0 ≤ n < 2 ^ 32 → create_signing_message (Some n) = Ok (mkCell (uint_bits n 32) []))
  ∧ (2 ^ 32 ≤ n → create_signing_message (Some n) = Err CellError)
  ∧ (0 ≤ n → 0 ≤ n' →
     create_signing_message (Some n) = Ok c → create_signing_message (Some n') = Ok c →
     n = n').
Proof.
  split; [done|]. split; [|split].
  - intros Hn. by apply create_signing_message_Ok.
  - intros Hn. destruct (create_signing_message (Some n)) as [c'|e] eqn:Hc.
    + apply create_signing_message_Ok in Hc as [Hr _]. simpl in Hr. lia.
    + by apply write_uint_Err in Hc as ->.
  - intros _ _ [Hr ->]%create_signing_message_Ok [Hr' Heq]%create_signing_message_Ok.
    apply (f_equal bits) in Heq. cbn [bits default] in *.
    by apply (uint_bits_inj _ _ 32).
Qed.

(** X3. The degenerate call (lines 91-116 with an empty list): the signing
    payload of the envelope is the cell [create_signing_message] returns,
    the 32-bit counter and no branch. *)
Theorem empty_list_header_only self to_addr amount seqno payload send_mode dummy state_init env :
  create_transfer_message self to_addr amount seqno payload send_mode dummy state_init
    (RList []) = Ok env →
  create_signing_message seqno = Ok (Envelope.signing_message env)
  ∧ Envelope.signing_message env = mkCell (uint_bits (default 0 seqno) 32) [].
Proof.
  rewrite create_transfer_message_unfold. intros He. step_Ok He.
  apply create_external_message_Ok in He as (-> & _).
  unfold signing_payload in Ha. cbn [normalize length] in Ha.
  case_decide; [lia|]. step_Ok Ha. cbn [for_each] in Ha. injection Ha as <-.
  split; [done|]. by apply create_signing_message_Ok in Ha0 as [_ ->].
Qed.

(** X4. Whatever form [recipients_list] has, the signing payload of a
    returned envelope has one child per element the loop met, at most four
    children, and 32 bits plus one byte per child. *)
Theorem signing_payload_size self to_addr amount seqno payload send_mode dummy state_init
    recipients_list env :
  create_transfer_message self to_addr amount seqno payload send_mode dummy state_init
    recipients_list = Ok env →
  length (refs (Envelope.signing_message env))
  = length (normalize to_addr amount payload send_mode state_init recipients_list)
  ∧ (length (refs (Envelope.signing_message env)) ≤ 4)%nat
  ∧ length (bits (Envelope.signing_message env))
    = (32 + 8 * length (refs (Envelope.signing_message env)))%nat.
Proof.
  rewrite create_transfer_message_unfold. intros He. step_Ok He.
  apply create_external_message_Ok in He as (-> & _).
  by apply signing_payload_Ok_size in Ha.
Qed.

(** X5. An envelope returned by [create_external_message] (lines 118-148)
    is consistent: it records the signing payload it was given; its body is
    the signature followed by the bits of that payload, with the payload's
    children, and fits one cell; its address is the wallet's; and its
    message is built from the header for that address, the [state_init] it
    reports and that very body. *)
Theorem envelope_fields_consistent self sm seqno dummy env :
  create_external_message self sm seqno dummy = Ok env →
  Envelope.signing_message env = sm
  ∧ Envelope.body env
    = mkCell (flat_map byte_bits (Envelope.signature env) ++ bits sm) (refs sm)
  ∧ (8 * length (Envelope.signature env) + length (bits sm) ≤ capacity)%nat
  ∧ self_address (options self) = Some (Envelope.address env)
  ∧ ∃ header,
      create_external_message_header (Envelope.address env) = Some header
      ∧ create_common_msg_info header
          (from_option VCell VNone (Envelope.state_init env)) (Envelope.body env)
        = Some (Envelope.message env).
Proof. apply create_external_message_inv. Qed.

(** X6. A transfer built with a dummy signature (lines 70-148) has a body
    of 512 zero bits followed by the signing payload: at most 576 bits,
    with the payload's children. *)
Theorem dummy_transfer_body self to_addr amount seqno payload send_mode state_init
    recipients_list env :
  create_transfer_message self to_addr amount seqno payload send_mode true state_init
    recipients_list = Ok env →
  bits (Envelope.body env) = replicate 512 false ++ bits (Envelope.signing_message env)
  ∧ refs (Envelope.body env) = refs (Envelope.signing_message env)
  ∧ (length (bits (Envelope.body env)) ≤ 576)%nat.
Proof.
  rewrite create_transfer_message_unfold. intros He. step_Ok He.
  apply signing_payload_Ok_size in Ha as (_ & Hle & Hbits).
  pose proof (create_external_message_Ok _ _ _ _ _ He) as (_ & Hsig & _).
  apply create_external_message_inv in He as (-> & -> & _).
  assert (Envelope.signature env = replicate 64 x00) as -> by (by injection Hsig).
  cbn [bits refs].
  assert (flat_map byte_bits (replicate 64 x00) = replicate 512 false) as ->
    by (vm_compute; reflexivity).
  split; [done|]. split; [done|].
  rewrite length_app, length_replicate, Hbits. lia.
Qed.

(** X7. An envelope returned by [create_init_external_message] (lines
    150-178) carries the deployment package as [create_state_init] gave it,
    address included; its signing payload is the counter 0 on 32 bits with
    no branch; its body is the real signature of that payload followed by
    these 32 zero bits; and its message wraps that body and [state_init]. *)
Theorem init_message_layout self ie :
  create_init_external_message self = Ok ie →
  create_state_init (options self)
  = Some (InitEnvelope.state_init ie, InitEnvelope.code ie, InitEnvelope.data ie,
          InitEnvelope.address ie)
  ∧ InitEnvelope.signing_message ie = mkCell (replicate 32 false) []
  ∧ ∃ key sig,
      options self !! "private_key" = Some key
      ∧ sign_message (bytes_hash (InitEnvelope.signing_message ie)) key = Some sig
      ∧ InitEnvelope.body ie = mkCell (flat_map byte_bits sig ++ replicate 32 false) []
      ∧ ∃ header,
          create_external_message_header (InitEnvelope.address ie) = Some header
          ∧ create_common_msg_info header (VCell (InitEnvelope.state_init ie))
              (InitEnvelope.body ie)
            = Some (InitEnvelope.message ie).
Proof. apply create_init_external_message_inv. Qed.

(** X8. The deployment message and a first transfer with no recipient agree:
    when [create_init_external_message] and
    [create_transfer_message(seqno=0, recipients_list=[])] with a real
    signature both return, they carry the same signing payload, the same
    body and the same [state_init], [code] and [data]. *)
Theorem init_agrees_with_first_transfer self to_addr amount payload send_mode state_init
    ie env :
  create_init_external_message self = Ok ie →
  create_transfer_message self to_addr amount (Some 0) payload send_mode false state_init
    (RList []) = Ok env →
  Envelope.signing_message env = InitEnvelope.signing_message ie
  ∧ Envelope.body env = InitEnvelope.body ie
  ∧ Envelope.state_init env = Some (InitEnvelope.state_init ie)
  ∧ Envelope.code env = Some (InitEnvelope.code ie)
  ∧ Envelope.data env = Some (InitEnvelope.data ie).
Proof.
  intros (Hsi & Hsm & key & sig & Hkey & Hsig & Hbody & _)%create_init_external_message_inv.
  rewrite create_transfer_message_unfold. intros He. step_Ok He.
  unfold signing_payload in Ha. cbn [normalize length] in Ha.
  case_decide; [lia|]. step_Ok Ha. cbn [for_each] in Ha. injection Ha as <-.
  apply create_signing_message_Ok in Ha0 as [_ ->]. cbn [default] in He.
  rewrite uint_bits_0 in He.
  pose proof (create_external_message_Ok _ _ _ _ _ He) as (_ & Hs & Hd & _).
  apply create_external_message_inv in He as (Hsm' & Hb & _).
  rewrite Hsm' , Hsm. split; [done|].
  unfold signature_of, dict_item in Hs. rewrite Hkey in Hs. cbn [mbind result_bind] in Hs.
  apply collab_Ok in Hs. rewrite <- Hsm, Hsig in Hs. injection Hs as Hs.
  rewrite Hb, Hbody, <- Hs. split; [done|].
  unfold deploy_of in Hd. rewrite bool_decide_eq_true_2 in Hd by done.
  rewrite Hsi in Hd. cbn in Hd. by injection Hd as <- <- <-.
Qed.

(** X9. Every combination of two or more members of [SendModeEnum] by [|]
    (lines 11-16) is an integer from 0 to 255, so the send-mode byte of
    line 113 is written whenever the signing payload has room for it. *)
Theorem send_mode_fits_a_byte (a b : Z) (rest : list Z) (c : Cell) :
  a ∈ send_mode_members → b ∈ send_mode_members →
  Forall (λ f, f ∈ send_mode_members) rest →
  0 ≤ send_mode_or a b rest < 256
  ∧ ((length (bits c) + 8 ≤ capacity)%nat →
     write_uint8_val (VInt (send_mode_or a b rest)) c
     = Ok (mkCell (bits c ++ uint_bits (send_mode_or a b rest) 8) (refs c))).
Proof.
  intros Ha Hb Hrest.
  assert (∀ f, f ∈ send_mode_members → Z.land f (Z.ones 8) = f) as Hmember.
  { intros f Hf. unfold send_mode_members in Hf. set_unfold.
    destruct Hf as [->|[->|[->|[->|[->|[]]]]]]; reflexivity. }
  assert (Z.land (send_mode_or a b rest) (Z.ones 8) = send_mode_or a b rest) as Hmask.
  { unfold send_mode_or.
    assert (Z.land (Z.lor a b) (Z.ones 8) = Z.lor a b) as Hacc
      by (by rewrite Z.land_lor_distr_l, !Hmember).
    revert Hacc. generalize (Z.lor a b). intros acc Hacc.
    revert acc Hacc. induction Hrest as [|f rest Hf _ IH]; intros acc Hacc; [done|].
    cbn [foldl]. apply IH. by rewrite Z.land_lor_distr_l, Hacc, Hmember. }
  assert (0 ≤ send_mode_or a b rest < 256) as Hr.
  { rewrite <- Hmask, Z.land_ones by done. apply Z.mod_pos_bound. done. }
  split; [done|]. intros Hfit. apply write_uint8_val_Ok. by exists (send_mode_or a b rest).
Qed.

(** X10. A replay counter of 2^32 or more stops [create_transfer_message]
    at line 94: with at most four recipients the call raises the cell
    engine's error, whatever the recipients and the wallet are. *)
Theorem seqno_too_large self to_addr amount n payload send_mode dummy state_init
    recipients_list :
  (length (normalize to_addr amount payload send_mode state_init recipients_list) ≤ 4)%nat →
  2 ^ 32 ≤ n →
  create_transfer_message self to_addr amount (Some n) payload send_mode dummy state_init
    recipients_list = Err CellError.
Proof.
  intros Hlen Hn. unfold create_transfer_message. case_decide; [lia|].
  destruct (create_signing_message (Some n)) as [c'|e] eqn:Hc.
  - apply create_signing_message_Ok in Hc as [Hr _]. simpl in Hr. lia.
  - by apply write_uint_Err in Hc as ->.
Qed.

(** X11. A bare mapping passed as [recipients_list] (lines 88-99) is counted
    and iterated by its keys: with more than four keys the call raises the
    recipient-count error; with no key it is the call with an empty list;
    with one to four keys and a counter that fits, it raises
    [AttributeError] at the first key. *)
Theorem bare_mapping_behaviour self to_addr amount seqno payload send_mode dummy state_init
    (d : Dict) :
  ((4 < size d)%nat →
   create_transfer_message self to_addr amount seqno payload send_mode dummy state_init
     (RMapping d) = Err ManyRecipients)
  ∧ (size d = 0%nat →
     create_transfer_message self to_addr amount seqno payload send_mode dummy state_init
       (RMapping d)
     = create_transfer_message self to_addr amount seqno payload send_mode dummy state_init
         (RList []))
  ∧ ((0 < size d ≤ 4)%nat → 0 ≤ default 0 seqno < 2 ^ 32 →
     create_transfer_message self to_addr amount seqno payload send_mode dummy state_init
       (RMapping d) = Err AttributeError).
Proof.
  assert (length (RStr <$> (map_to_list d).*1) = size d) as Hlen
    by by rewrite !length_fmap, length_map_to_list.
  unfold create_transfer_message. cbn [normalize]. rewrite Hlen.
  split; [|split].
  - intros Hd. by case_decide.
  - intros Hd. apply map_size_empty_iff in Hd as ->. by rewrite map_to_list_empty.
  - intros Hd Hseqno. case_decide; [lia|].
    assert (create_signing_message seqno
            = Ok (mkCell (uint_bits (default 0 seqno) 32) [])) as ->
      by by apply create_signing_message_Ok.
    destruct (map_to_list d) as [|[k v] kvs]; [simpl in Hlen; lia|done].
Qed.

End Further.

(** X12. [to_dict] after [from_dict] (lines 29-49) gives back the mapping
    exactly when the mapping holds [address], [amount] and [send_mode],
    holds no [None] under [payload] or [state_init], and has no other key. *)
Theorem from_dict_to_dict_roundtrip (d : Dict) :
  WalletMessage.to_dict (WalletMessage.from_dict d) = d
  ↔ is_Some (d !! "address") ∧ is_Some (d !! "amount") ∧ is_Some (d !! "send_mode")
    ∧ d !! "payload" ≠ Some VNone ∧ d !! "state_init" ≠ Some VNone
    ∧ ∀ k, k ∉ message_keys → d !! k = None.
Proof.
  split.
  - intros Hd.
    pose proof (to_dict_lookup (WalletMessage.from_dict d)) as Hl. rewrite Hd in Hl.
    repeat split.
    + rewrite (Hl "address"). by repeat case_decide.
    + rewrite (Hl "amount"). by repeat case_decide.
    + rewrite (Hl "send_mode"). by repeat case_decide.
    + rewrite (Hl "payload"). repeat case_decide; try done.
      by destruct (WalletMessage.payload _).
    + rewrite (Hl "state_init"). repeat case_decide; try done.
      by destruct (WalletMessage.state_init _).
    + intros k Hk. rewrite (Hl k). unfold message_keys in Hk. set_unfold.
      repeat case_decide; first [done | exfalso; apply Hk; auto 10].
  - intros ([a Ha] & [n Hn] & [sm Hsm] & Hp & Hs & Hother).
    apply map_eq. intros k. rewrite to_dict_lookup.
    unfold WalletMessage.from_dict, dict_get. cbn. rewrite Ha, Hn, Hsm. cbn.
    repeat case_decide; subst; try done.
    + destruct (d !! "payload") as [[]|]; done.
    + destruct (d !! "state_init") as [[]|]; done.
    + symmetry. apply Hother. unfold message_keys. set_unfold. tauto.
Qed.

(** X13. [from_dict] (lines 42-49) reads the five keys only: an entry under
    any other key changes nothing, so a misspelt [send_mode] leaves the
    default in place. *)
Theorem from_dict_ignores_other_keys (d : Dict) (k : string) (v : PyVal) :
  k ∉ message_keys →
  WalletMessage.from_dict (<[k:=v]> d) = WalletMessage.from_dict d.
Proof.
  intros Hk. unfold message_keys in Hk. set_unfold.
  unfold WalletMessage.from_dict, dict_get.
  rewrite !lookup_insert_ne by (intros ->; apply Hk; auto 10). done.
Qed.

Lemma WalletContract_init_refused `{Collaborators} (kwargs : Dict) :
  WalletContract_init kwargs = Err RequiredKeyOrAddress
  ↔ (kwargs !! "public_key" = None ∨ kwargs !! "private_key" = None)
    ∧ kwargs !! "address" = None ∧ kwargs !! "public_keys" = None.
Proof.
  unfold WalletContract_init, dict_has.
  destruct (kwargs !! "public_key"), (kwargs !! "private_key"),
    (kwargs !! "address"), (kwargs !! "public_keys"); cbn.
  all: split;
    [ first [ intros [Hc%collab_Err|(? & _ & [=])]%bind_Err; done | intros _; intuition ]
    | first [ done | intuition discriminate ] ].
Qed.

(** X14. The check of the constructor (lines 52-55) looks at the keys only:
    a public key alone, or a private key alone, is refused; and an option
    added to options that pass the check never makes it fail. *)
Theorem constructor_check_keys `{Collaborators} (kwargs : Dict) (k : string) (v w : PyVal) :
  WalletContract_init {["public_key" := v]} = Err RequiredKeyOrAddress
  ∧ WalletContract_init {["private_key" := v]} = Err RequiredKeyOrAddress
  ∧ (WalletContract_init kwargs ≠ Err RequiredKeyOrAddress →
     WalletContract_init (<[k:=w]> kwargs) ≠ Err RequiredKeyOrAddress).
Proof.
  split; [|split].
  - apply WalletContract_init_refused.
    split; [right|split]; by rewrite lookup_singleton_ne.
  - apply WalletContract_init_refused.
    split; [left|split]; by rewrite lookup_singleton_ne.
  - rewrite !WalletContract_init_refused. intros Hpass ([Hpk|Hsk] & Ha & Hks).
    all: apply Hpass.
    all: apply lookup_insert_None in Ha as [Ha _], Hks as [Hks _].
    + apply lookup_insert_None in Hpk as [Hpk _]. tauto.
    + apply lookup_insert_None in Hsk as [Hsk _]. tauto.
Qed.

(** X15. The 32-bit zero marker of a text payload (lines 101-107) is not
    told apart from data: raw bytes that begin with four zero bytes
    followed by the UTF-8 bytes of a non-empty text give what that text
    gives, the same sub-cell or the same error. *)
Theorem text_marker_is_four_zero_bytes `{Collaborators} (s : pystr) (b : bytes) :
  s ≠ [] →
  utf8_encode s = Some b →
  payload_cell_of (VBytes (x00 :: x00 :: x00 :: x00 :: b)) = payload_cell_of (VStr s).
Proof.
  intros Hs Hb. unfold payload_cell_of. cbn [truthy].
  rewrite !bool_decide_eq_false_2 by done. cbn [negb].
  unfold write_string. rewrite Hb.
  assert (write_uint 0 32 Cell_new = Ok (mkCell (replicate 32 false) [])) as ->.
  { apply write_uint_Ok. split; [done|]. split; [unfold capacity; cbn; lia|].
    by rewrite uint_bits_0. }
  cbn [mbind result_bind].
  assert (∀ c, (length (bits c) + 8 ≤ capacity)%nat →
               write_uint8 (Z.of_N (Byte.to_N x00)) c
               = Ok (mkCell (bits c ++ replicate 8 false) (refs c))) as Hz.
  { intros c Hc. apply write_uint_Ok. split; [done|]. split; [done|]. done. }
  do 4 (rewrite write_bytes_cons, Hz by (cbn; unfold capacity; lia);
        cbn [mbind result_bind bits refs app]).
  done.
Qed.

(** ** The further properties on concrete inputs *)

Lemma signing_message_header_witness :
  create_signing_message (Some 5) = Ok Demo.header_5
  ∧ create_signing_message (Some (2 ^ 32)) = Err CellError.
Proof.
  destruct (signing_message_header 5 5 Demo.header_5) as (_ & Hin & _).
  destruct (signing_message_header (2 ^ 32) 5 Demo.header_5) as (_ & _ & Hout & _).
  split; [apply Hin; lia|apply Hout; lia].
Defined.

Lemma empty_list_header_only_witness :
  ∃ env,
    Demo.transfer Demo.keyed (Some 5) true (RList []) = Ok env
    ∧ create_signing_message (Some 5) = Ok (Envelope.signing_message env)
    ∧ Envelope.signing_message env = mkCell (uint_bits (default 0 (Some 5)) 32) [].
Proof.
  eexists. split; [vm_compute; reflexivity|].
  apply (@empty_list_header_only Demo.collaborators Demo.keyed VNone VNone (Some 5) VNone
           WalletMessage.default_send_mode true VNone).
  vm_compute. reflexivity.
Defined.

Lemma signing_payload_size_witness :
  ∃ env,
    Demo.transfer Demo.keyed (Some 5) true Demo.one_recipient = Ok env
    ∧ length (refs (Envelope.signing_message env)) = 1%nat
    ∧ (length (refs (Envelope.signing_message env)) ≤ 4)%nat
    ∧ length (bits (Envelope.signing_message env))
      = (32 + 8 * length (refs (Envelope.signing_message env)))%nat.
Proof.
  eexists. split; [vm_compute; reflexivity|].
  apply (@signing_payload_size Demo.collaborators Demo.keyed VNone VNone (Some 5) VNone
           WalletMessage.default_send_mode true VNone Demo.one_recipient).
  vm_compute. reflexivity.
Defined.

Lemma envelope_fields_consistent_witness :
  ∃ env,
    create_external_message (H := Demo.collaborators) Demo.keyed Demo.header_5 (Some 5) false
    = Ok env
    ∧ Envelope.signing_message env = Demo.header_5
    ∧ Envelope.body env
      = mkCell (flat_map byte_bits (Envelope.signature env) ++ bits Demo.header_5)
          (refs Demo.header_5).
Proof.
  eexists. split; [vm_compute; reflexivity|].
  edestruct (@envelope_fields_consistent Demo.collaborators Demo.keyed Demo.header_5
               (Some 5) false) as (Hsm & Hbody & _); [vm_compute; reflexivity|].
  split; [exact Hsm|exact Hbody].
Defined.

Lemma dummy_transfer_body_witness :
  ∃ env,
    Demo.transfer Demo.watch_only (Some 5) true Demo.one_recipient = Ok env
    ∧ bits (Envelope.body env) = replicate 512 false ++ bits (Envelope.signing_message env)
    ∧ refs (Envelope.body env) = refs (Envelope.signing_message env)
    ∧ (length (bits (Envelope.body env)) ≤ 576)%nat.
Proof.
  eexists. split; [vm_compute; reflexivity|].
  apply (@dummy_transfer_body Demo.collaborators Demo.watch_only VNone VNone (Some 5) VNone
           WalletMessage.default_send_mode VNone Demo.one_recipient).
  vm_compute. reflexivity.
Defined.

Lemma init_message_layout_witness :
  ∃ ie,
    create_init_external_message (H := Demo.collaborators) Demo.keyed = Ok ie
    ∧ Demo.state_init_of (options Demo.keyed)
      = Some (InitEnvelope.state_init ie, InitEnvelope.code ie, InitEnvelope.data ie,
              InitEnvelope.address ie)
    ∧ InitEnvelope.signing_message ie = mkCell (replicate 32 false) [].
Proof.
  eexists. split; [vm_compute; reflexivity|].
  edestruct (@init_message_layout Demo.collaborators Demo.keyed) as (Hsi & Hsm & _);
    [vm_compute; reflexivity|].
  split; [exact Hsi|exact Hsm].
Defined.

Lemma init_agrees_with_first_transfer_witness :
  ∃ ie env,
    create_init_external_message (H := Demo.collaborators) Demo.keyed = Ok ie
    ∧ Demo.transfer Demo.keyed (Some 0) false (RList []) = Ok env
    ∧ Envelope.signing_message env = InitEnvelope.signing_message ie
    ∧ Envelope.body env = InitEnvelope.body ie
    ∧ Envelope.state_init env = Some (InitEnvelope.state_init ie)
    ∧ Envelope.code env = Some (InitEnvelope.code ie)
    ∧ Envelope.data env = Some (InitEnvelope.data ie).
Proof.
  eexists. eexists. split; [vm_compute; reflexivity|]. split; [vm_compute; reflexivity|].
  apply (@init_agrees_with_first_transfer Demo.collaborators Demo.keyed VNone VNone VNone
           WalletMessage.default_send_mode VNone); vm_compute; reflexivity.
Defined.

Lemma send_mode_fits_a_byte_witness :
  0 ≤ send_mode_or SendModeEnum.ignore_errors SendModeEnum.pay_gas_separately [] < 256
  ∧ send_mode_or SendModeEnum.carry_all_remaining_balance SendModeEnum.ignore_errors
      [SendModeEnum.pay_gas_separately] = 131.
Proof.
  split; [|reflexivity].
  apply (send_mode_fits_a_byte SendModeEnum.ignore_errors SendModeEnum.pay_gas_separately
           [] Cell_new).
  - unfold send_mode_members. rewrite list_elem_of_In. simpl. auto 10.
  - unfold send_mode_members. rewrite list_elem_of_In. simpl. auto 10.
  - constructor.
Defined.

Lemma seqno_too_large_witness :
  Demo.transfer Demo.keyed (Some (2 ^ 32)) true Demo.one_recipient = Err CellError.
Proof.
  apply (@seqno_too_large Demo.collaborators Demo.keyed VNone VNone (2 ^ 32) VNone
           WalletMessage.default_send_mode true VNone Demo.one_recipient).
  - simpl. lia.
  - lia.
Defined.

Lemma bare_mapping_behaviour_witness :
  Demo.transfer Demo.keyed (Some 5) true (RMapping Demo.mapping) = Err AttributeError
  ∧ Demo.transfer Demo.keyed (Some 5) true (RMapping ∅)
    = Demo.transfer Demo.keyed (Some 5) true (RList []).
Proof.
  split.
  - apply (@bare_mapping_behaviour Demo.collaborators Demo.keyed VNone VNone (Some 5) VNone
             WalletMessage.default_send_mode true VNone Demo.mapping).
    + vm_compute. split; lia.
    + simpl. lia.
  - apply (@bare_mapping_behaviour Demo.collaborators Demo.keyed VNone VNone (Some 5) VNone
             WalletMessage.default_send_mode true VNone ∅).
    reflexivity.
Defined.

Lemma from_dict_ignores_other_keys_witness :
  WalletMessage.send_mode
    (WalletMessage.from_dict (<["sendmode" := VInt 128]> Demo.mapping))
  = WalletMessage.default_send_mode.
Proof.
  rewrite (from_dict_ignores_other_keys Demo.mapping "sendmode" (VInt 128)).
  - reflexivity.
  - unfold message_keys. rewrite list_elem_of_In. simpl. intuition discriminate.
Defined.

Lemma constructor_check_keys_witness :
  WalletContract_init (H := Demo.collaborators) {["public_key" := VBytes [x0a]]}
  = Err RequiredKeyOrAddress
  ∧ WalletContract_init (H := Demo.collaborators)
      (<["public_keys" := VNone]> (options Demo.keyed))
    ≠ Err RequiredKeyOrAddress.
Proof.
  destruct (@constructor_check_keys Demo.collaborators (options Demo.keyed) "public_keys"
              (VBytes [x0a]) VNone) as (Hpk & _ & Hmono).
  split; [exact Hpk|]. apply Hmono. vm_compute. discriminate.
Defined.

Lemma text_marker_is_four_zero_bytes_witness :
  payload_cell_of (H := Demo.collaborators) (VBytes [x00; x00; x00; x00; x68; x69])
  = payload_cell_of (H := Demo.collaborators) (VStr [104%N; 105%N]).
Proof.
  apply (@text_marker_is_four_zero_bytes Demo.collaborators [104%N; 105%N] [x68; x69]).
  - discriminate.
  - reflexivity.
Defined.
